(** * AtividadePAM2: the client-record API and its form front-end

    A shallow embedding of [BackEnd/index.js] (five Express route handlers
    over a storage module) and of the handlers of [FrontEnd/app/index.tsx]
    (form validation, create / update / delete submission, list fetch),
    followed by the properties proved about them. *)

From Stdlib Require Import ZArith NArith List String Ascii Bool Lia.
From Stdlib Require Import DecimalString DecimalPos DecimalZ.
Import ListNotations.
Local Open Scope Z_scope.
Set Warnings "-register-all".

(** ** Completions and the state-and-exception monad

    A JavaScript computation either completes normally with a value or
    throws.  State written before a [throw] stays written, so the state is
    returned on both sides. *)

Record jserror := mkError {
  isError : bool;        (* [error instanceof Error] *)
  name : string;         (* [error.name] *)
  message : string       (* [error.message] *)
}.

Inductive completion (A : Type) :=
| Normal (a : A)
| Throw (e : jserror).
Arguments Normal {A} a.
Arguments Throw {A} e.

Section StateExc.
Context {S : Type}.

Definition M (A : Type) : Type := S -> completion A * S.

Definition ret {A} (a : A) : M A := fun s => (Normal a, s).

Definition bind {A B} (m : M A) (k : A -> M B) : M B :=
  fun s => match m s with
           | (Normal a, s1) => k a s1
           | (Throw e, s1) => (Throw e, s1)
           end.

Definition throw {A} (e : jserror) : M A := fun s => (Throw e, s).

(** [try { m } catch (error) { h error }] *)
Definition try_catch {A} (m : M A) (h : jserror -> M A) : M A :=
  fun s => match m s with
           | (Normal a, s1) => (Normal a, s1)
           | (Throw e, s1) => h e s1
           end.

(** [try { m } finally { f }]: [f] runs on both exits; the completion of
    [m] is kept unless [f] itself throws. *)
Definition try_finally {A} (m : M A) (f : M unit) : M A :=
  fun s => match m s with
           | (r, s1) => match f s1 with
                        | (Normal _, s2) => (r, s2)
                        | (Throw e, s2) => (Throw e, s2)
                        end
           end.

(** [await p] of a promise that is already settled with completion [c]. *)
Definition await {A} (c : completion A) : M A := fun s => (c, s).

Definition modify (f : S -> S) : M unit := fun s => (Normal tt, f s).
End StateExc.
Arguments M S A : clear implicits.

Declare Scope js_scope.
Delimit Scope js_scope with js.
Notation "x <- m ;; k" := (bind m (fun x => k))
  (at level 61, m at next level, right associativity) : js_scope.
Notation "m ;; k" := (bind m (fun _ => k))
  (at level 61, right associativity) : js_scope.
Notation "' pat <- m ;; k" := (bind m (fun x => match x with pat => k end))
  (at level 61, pat pattern, m at next level, right associativity) : js_scope.

(** ** JavaScript strings

    The form fields are inspected character by character ([length], [trim],
    [parseInt], [toUpperCase]), so they are sequences of UTF-16 code units.
    Text that is only displayed, compared as a whole or forwarded (alert
    messages, error names, JSON payloads of the API) is kept as a [string]
    literal holding the bytes of the source text. *)

Module JS.

Definition jsstring := list N.

(** An ASCII literal as code units. *)
Definition lit (s : string) : jsstring :=
  map N_of_ascii (list_ascii_of_string s).

Local Open Scope N_scope.

Definition between (lo hi c : N) : bool := (lo <=? c) && (c <=? hi).

(** ECMAScript WhiteSpace and LineTerminator code points, the set that
    [String.prototype.trim] and [parseInt] strip. *)
Definition isWhiteSpace (c : N) : bool :=
  between 0x09 0x0D c || (c =? 0x20) || (c =? 0xA0) || (c =? 0x1680)
  || between 0x2000 0x200A c || (c =? 0x2028) || (c =? 0x2029)
  || (c =? 0x202F) || (c =? 0x205F) || (c =? 0x3000) || (c =? 0xFEFF).

Fixpoint trimStart (s : jsstring) : jsstring :=
  match s with
  | c :: rest => if isWhiteSpace c then trimStart rest else s
  | [] => []
  end.

Definition trimEnd (s : jsstring) : jsstring := rev (trimStart (rev s)).

Definition trim (s : jsstring) : jsstring := trimEnd (trimStart s).

(** [!s] for a string: the empty string is the only falsy one. *)
Definition isEmpty (s : jsstring) : bool :=
  match s with [] => true | _ => false end.

Definition isUpperAZ (c : N) : bool := between 65 90 c.
Definition isLowerAZ (c : N) : bool := between 97 122 c.
Definition isLetterAZ (c : N) : bool := isUpperAZ c || isLowerAZ c.
Definition isAscii (c : N) : bool := c <? 128.

Definition upperAscii (c : N) : N := if isLowerAZ c then c - 32 else c.

Section Engine.
(** [toUpperCase] maps every code point through Unicode's locale-
    insensitive upper-case mapping.  On ASCII that exchanges a-z for A-Z
    and keeps the rest; the table for the other code points belongs to the
    engine, not to the repository, and is the parameter [unicodeUpper],
    consulted for strings holding a non-ASCII code unit. *)
Variable unicodeUpper : jsstring -> jsstring.

Definition toUpperCase (s : jsstring) : jsstring :=
  if forallb isAscii s then map upperAscii s else unicodeUpper s.
End Engine.

(** *** parseInt (radix omitted)

    The Number result is modelled by the mathematical integer it denotes,
    [None] standing for NaN.  Rounding to a double is monotone and exact on
    0, 150 and 151, and [-0] is neither NaN nor below 0, so [isNaN] and the
    comparisons with 0 and 150 agree with the ones on the integer. *)

Definition digitValue (c : N) : option Z :=
  if between 48 57 c then Some (Z.of_N (c - 48))
  else if between 97 122 c then Some (Z.of_N (c - 87))
  else if between 65 90 c then Some (Z.of_N (c - 55))
  else None.

Definition radixDigit (R : Z) (c : N) : option Z :=
  match digitValue c with
  | Some d => if (d <? R)%Z then Some d else None
  | None => None
  end.

(** The longest prefix of radix-[R] digits. *)
Fixpoint digitPrefix (R : Z) (s : jsstring) : list Z :=
  match s with
  | c :: rest => match radixDigit R c with
                 | Some d => d :: digitPrefix R rest
                 | None => []
                 end
  | [] => []
  end.

Definition mathInt (R : Z) (ds : list Z) : Z :=
  fold_left (fun acc d => (acc * R + d)%Z) ds 0%Z.

Definition parseInt (input : jsstring) : option Z :=
  let s := trimStart input in
  let sign := match s with
              | c :: _ => if c =? 45 then (-1)%Z else 1%Z
              | [] => 1%Z
              end in
  let s := match s with
           | c :: rest => if (c =? 43) || (c =? 45) then rest else s
           | [] => s
           end in
  let '(R, s) := match s with
                 | c0 :: c1 :: rest =>
                     if (c0 =? 48) && ((c1 =? 120) || (c1 =? 88))
                     then (16%Z, rest) else (10%Z, s)
                 | _ => (10%Z, s)
                 end in
  match digitPrefix R s with
  | [] => None
  | ds => Some (sign * mathInt R ds)%Z
  end.

(** *** The specification's words about field contents *)

(** "exactly two uppercase letters" *)
Definition twoUpperLetters (s : jsstring) : bool :=
  Nat.eqb (List.length s) 2 && forallb isUpperAZ s.

Definition isDigit (c : N) : bool := between 48 57 c.

(** "numeric text": the whole text is a decimal integer, an optional sign
    followed by one or more digits and nothing else. *)
Definition numericText (s : jsstring) : bool :=
  let digits := match s with
                | c :: rest => if (c =? 43) || (c =? 45) then rest else s
                | [] => s
                end in
  negb (isEmpty digits) && forallb isDigit digits.

End JS.

(** ** The API service ([BackEnd/index.js]) *)

Module BackEnd.
Local Open Scope string_scope.
Local Open Scope js_scope.

(** JSON-like values: request bodies, storage results, response payloads. *)
Inductive jsval :=
| VUndefined
| VNull
| VBool (b : bool)
| VNum (n : Z)
| VStr (s : string)
| VArr (items : list jsval)
| VObj (fields : list (string * jsval)).

(** [if (v)] *)
Definition truthy (v : jsval) : bool :=
  match v with
  | VUndefined | VNull => false
  | VBool b => b
  | VNum n => negb (n =? 0)%Z
  | VStr s => negb (String.eqb s "")
  | VArr _ | VObj _ => true
  end.

Fixpoint lookup (key : string) (fields : list (string * jsval)) : option jsval :=
  match fields with
  | (k, v) :: rest => if String.eqb k key then Some v else lookup key rest
  | [] => None
  end.

(** [v.key] on a value that is not null or undefined. *)
Definition getProp (v : jsval) (key : string) : jsval :=
  match v with
  | VObj fields => match lookup key fields with Some x => x | None => VUndefined end
  | _ => VUndefined
  end.

Definition nullish (v : jsval) : bool :=
  match v with VUndefined | VNull => true | _ => false end.

(** What a handler reads of [req]: [req.params.id] and [req.body]. *)
Record request := mkRequest { params_id : string; body : jsval }.

(** What a handler writes to [res]: the status and the JSON payload. *)
Record response := mkResponse { status : Z; payload : jsval }.

(** [res.json(v)] answers with the default status 200. *)
Definition res_json (v : jsval) : response := mkResponse 200 v.
(** [res.status(code).json(v)] *)
Definition res_status_json (code : Z) (v : jsval) : response := mkResponse code v.

Definition msg (text : string) : jsval := VObj [("message", VStr text)].
Definition err (text : string) : jsval := VObj [("error", VStr text)].

Inductive endpoint := List | GetById | Create | Update | Delete.

Section Routes.
(** The storage module [./conf/autenticacao] is not part of the sources:
    its five functions are parameters, each a computation over the
    database [DB] that returns a value or throws. *)
Variable DB : Type.
Variable selectFull : M DB jsval.
Variable selectById : string -> M DB jsval.
Variable deleteById : string -> M DB jsval.
Variable insertCliente : jsval -> jsval -> jsval -> M DB jsval.
Variable updateCliente : jsval -> jsval -> jsval -> string -> M DB jsval.

(** [const { Nome, Idade, UF } = req.body;] throws a TypeError on
    [undefined] and [null]; a missing property reads as [undefined]. *)
Definition destructure (b : jsval) : M DB (jsval * jsval * jsval) :=
  if nullish b
  then throw (mkError true "TypeError" "Cannot destructure property 'Nome'")
  else ret (getProp b "Nome", getProp b "Idade", getProp b "UF").

(** [app.get("/", ...)] *)
Definition get_root (req : request) : M DB response :=
  try_catch
    (data <- selectFull ;;
     ret (res_json data))
    (fun _ => ret (res_status_json 500 (err "Erro ao buscar clientes"))).

(** [app.get("/clientes/:id", ...)] *)
Definition get_cliente (req : request) : M DB response :=
  try_catch
    (data <- selectById (params_id req) ;;
     ret (res_json data))
    (fun _ => ret (res_status_json 500 (err "Erro ao buscar cliente"))).

(** [app.post("/clientes", ...)] *)
Definition post_cliente (req : request) : M DB response :=
  try_catch
    ('(Nome, Idade, UF) <- destructure (body req) ;;
     insertCliente Nome Idade UF ;;
     ret (res_status_json 201 (msg "Cliente criado com sucesso")))
    (fun _ => ret (res_status_json 500 (err "Erro ao criar cliente"))).

(** [app.put("/clientes/:id", ...)] *)
Definition put_cliente (req : request) : M DB response :=
  try_catch
    ('(Nome, Idade, UF) <- destructure (body req) ;;
     updateCliente Nome Idade UF (params_id req) ;;
     ret (res_json (msg "Cliente atualizado com sucesso")))
    (fun _ => ret (res_status_json 500 (err "Erro ao atualizar cliente"))).

(** [app.delete("/clientes/:id", ...)] *)
Definition delete_cliente (req : request) : M DB response :=
  try_catch
    (ok <- deleteById (params_id req) ;;
     if truthy ok
     then ret (res_json (msg "Cliente deletado com sucesso"))
     else ret (res_status_json 404 (err "Cliente não encontrado")))
    (fun _ => ret (res_status_json 500 (err "Erro ao deletar cliente"))).

Definition handle (ep : endpoint) : request -> M DB response :=
  match ep with
  | List => get_root
  | GetById => get_cliente
  | Create => post_cliente
  | Update => put_cliente
  | Delete => delete_cliente
  end.

(** The storage call an endpoint makes for a request. *)
Definition storageCall (ep : endpoint) (req : request) : M DB jsval :=
  match ep with
  | List => selectFull
  | GetById => selectById (params_id req)
  | Create => insertCliente (getProp (body req) "Nome")
                (getProp (body req) "Idade") (getProp (body req) "UF")
  | Update => updateCliente (getProp (body req) "Nome")
                (getProp (body req) "Idade") (getProp (body req) "UF")
                (params_id req)
  | Delete => deleteById (params_id req)
  end.
End Routes.

(** The message of the catch branch of each route. *)
Definition failureText (ep : endpoint) : string :=
  match ep with
  | List => "Erro ao buscar clientes"
  | GetById => "Erro ao buscar cliente"
  | Create => "Erro ao criar cliente"
  | Update => "Erro ao atualizar cliente"
  | Delete => "Erro ao deletar cliente"
  end.

End BackEnd.

(** ** A storage module for the API *)

Module SpecStore.
Import BackEnd.
Local Open Scope string_scope.

(** Modelled from the spec: a row of the relational table behind
    [./conf/autenticacao] (absent from the sources), "columns matching the
    Client entity"; the API forwards any values, so the three fields hold
    whatever the request supplied. *)
Record row := mkRow { id : Z; Nome : jsval; Idade : jsval; UF : jsval }.

(** Modelled from the spec: the database of [./conf/autenticacao]: the
    table, the next identifier "generated by the storage layer on creation",
    and whether the connection works ("on storage failure"). *)
Record DB := mkDB { rows : list row; nextId : Z; online : bool }.

Definition showZ (z : Z) : string := NilZero.string_of_int (Z.to_int z).

(** Modelled from the spec: how [./conf/autenticacao] matches the route
    parameter against the integer [id] column. *)
Definition matches (param : string) (r : row) : bool :=
  String.eqb param (showZ (id r)).

Definition toObj (r : row) : jsval :=
  VObj [("id", VNum (id r)); ("Nome", Nome r); ("Idade", Idade r); ("UF", UF r)].

Definition unavailable : jserror := mkError true "Error" "connect ECONNREFUSED".

(** Modelled from the spec: the guard every function of
    [./conf/autenticacao] shares, a storage failure surfacing as a throw. *)
Definition connected {A} (op : DB -> A * DB) : M DB A :=
  fun db => if online db
            then (let (a, db') := op db in (Normal a, db'))
            else (Throw unavailable, db).

(** Modelled from the spec: [selectFull] of [./conf/autenticacao], "the
    ordered sequence of all Client records". *)
Definition selectFull : M DB jsval :=
  connected (fun db => (VArr (map toObj (rows db)), db)).

(** Modelled from the spec: [selectById] of [./conf/autenticacao],
    "whatever the single-row query yields, including empty/undefined". *)
Definition selectById (param : string) : M DB jsval :=
  connected (fun db =>
    (match find (matches param) (rows db) with
     | Some r => toObj r
     | None => VUndefined
     end, db)).

(** Modelled from the spec: [deleteById] of [./conf/autenticacao]: "if a
    matching record existed and was removed, returns a success indicator;
    if no record matched, returns a not-found indicator". *)
Definition deleteById (param : string) : M DB jsval :=
  connected (fun db =>
    (VBool (existsb (matches param) (rows db)),
     mkDB (filter (fun r => negb (matches param r)) (rows db))
          (nextId db) (online db))).

(** Modelled from the spec: [insertCliente] of [./conf/autenticacao],
    "fields supplied by caller, id assigned by storage". *)
Definition insertCliente (n i u : jsval) : M DB jsval :=
  connected (fun db =>
    (VUndefined,
     mkDB (rows db ++ [mkRow (nextId db) n i u]) (nextId db + 1) (online db))).

(** Modelled from the spec: [updateCliente] of [./conf/autenticacao], "all
    three fields replaceable, id fixed"; the result counts the rows
    changed. *)
Definition updateCliente (n i u : jsval) (param : string) : M DB jsval :=
  connected (fun db =>
    (VNum (Z.of_nat (List.length (filter (matches param) (rows db)))),
     mkDB (map (fun r => if matches param r then mkRow (id r) n i u else r)
               (rows db))
          (nextId db) (online db))).

(** The five routes over this storage. *)
Definition serve (ep : endpoint) : request -> M DB response :=
  handle DB selectFull selectById deleteById insertCliente updateCliente ep.

Definition anaSilva : jsval :=
  VObj [("Nome", VStr "Ana Silva"); ("Idade", VNum 30); ("UF", VStr "SP")].

Definition emptyDB : DB := mkDB [] 1 true.
Definition oneRowDB : DB := mkDB [mkRow 1 (VStr "Ana Silva") (VNum 30) (VStr "SP")] 2 true.
Definition offlineDB : DB := mkDB [] 1 false.

End SpecStore.

(** ** The client application ([FrontEnd/app/index.tsx]) *)

Module FrontEnd.
Import JS.
Local Open Scope string_scope.
Local Open Scope js_scope.

Record Cliente := mkCliente {
  id : Z;
  cNome : jsstring;
  cIdade : Z;
  cUF : jsstring
}.

Record FormData := mkForm {
  Nome : jsstring;
  Idade : jsstring;
  UF : jsstring
}.

Definition API_BASE_URL : string := "http://localhost:3000".

(** The [useState] cells of [App]. *)
Record State := mkState {
  clientes : list Cliente;
  loading : bool;
  modalVisible : bool;
  deleteModalVisible : bool;
  editingCliente : option Cliente;
  deletingCliente : option Cliente;
  formData : FormData
}.

(** The object handed to [JSON.stringify] by create and update; a NaN age
    would be [None]. *)
Record payload := mkPayload {
  pNome : jsstring;
  pIdade : option Z;
  pUF : jsstring
}.

(** The [signal] option of a request: [AbortSignal.timeout(ms)], or the
    signal of the [AbortController] made by the handler. *)
Inductive signal :=
| TimeoutSignal (ms : Z)
| ControllerSignal.

Record request := mkRequest {
  url : string;
  method : string;
  headers : list (string * string);
  body : option payload;
  reqSignal : signal
}.

(** A parsed response body as [fetchClientes] looks at it. *)
Inductive data :=
| DArray (items : list Cliente)
| DOther.

Record response := mkResponse {
  status : Z;
  json : completion data;       (* [await response.json()] *)
  text : completion string      (* [await response.text()] *)
}.

(** [response.ok] *)
Definition ok (r : response) : bool :=
  ((200 <=? status r) && (status r <=? 299))%Z.

(** What a handler does to the world outside the component state. *)
Inductive event :=
| Alert (title text : string)        (* [Alert.alert(title, text)] *)
| ConsoleLog (label : string)
| ConsoleError (label : string)
| Fetch (r : request)
| SetTimeoutAbort (ms : Z)           (* [setTimeout(() => controller.abort(), ms)] *)
| ClearTimeout.

(** The component state, the events so far, and the network: the [n]-th
    coming [fetch] settles with [net n], a response or a rejection. *)
Record Sys := mkSys {
  ui : State;
  trace : list event;
  net : nat -> completion response
}.

Definition emit (ev : event) : M Sys unit :=
  modify (fun s => mkSys (ui s) (trace s ++ [ev]) (net s)).

Definition alert (title text : string) : M Sys unit := emit (Alert title text).
Definition console_log (label : string) : M Sys unit := emit (ConsoleLog label).
Definition console_error (label : string) : M Sys unit := emit (ConsoleError label).

(** [await fetch(url, options)] *)
Definition fetch (r : request) : M Sys response :=
  fun s => (net s 0%nat,
            mkSys (ui s) (trace s ++ [Fetch r]) (fun n => net s (S n))).

Definition setState (f : State -> State) : M Sys unit :=
  modify (fun s => mkSys (f (ui s)) (trace s) (net s)).

Definition setClientes (v : list Cliente) : M Sys unit :=
  setState (fun u => mkState v (loading u) (modalVisible u) (deleteModalVisible u)
                       (editingCliente u) (deletingCliente u) (formData u)).
Definition setLoading (v : bool) : M Sys unit :=
  setState (fun u => mkState (clientes u) v (modalVisible u) (deleteModalVisible u)
                       (editingCliente u) (deletingCliente u) (formData u)).
Definition setModalVisible (v : bool) : M Sys unit :=
  setState (fun u => mkState (clientes u) (loading u) v (deleteModalVisible u)
                       (editingCliente u) (deletingCliente u) (formData u)).
Definition setDeleteModalVisible (v : bool) : M Sys unit :=
  setState (fun u => mkState (clientes u) (loading u) (modalVisible u) v
                       (editingCliente u) (deletingCliente u) (formData u)).
Definition setEditingCliente (v : option Cliente) : M Sys unit :=
  setState (fun u => mkState (clientes u) (loading u) (modalVisible u)
                       (deleteModalVisible u) v (deletingCliente u) (formData u)).
Definition setDeletingCliente (v : option Cliente) : M Sys unit :=
  setState (fun u => mkState (clientes u) (loading u) (modalVisible u)
                       (deleteModalVisible u) (editingCliente u) v (formData u)).
Definition setFormData (v : FormData) : M Sys unit :=
  setState (fun u => mkState (clientes u) (loading u) (modalVisible u)
                       (deleteModalVisible u) (editingCliente u)
                       (deletingCliente u) v).

Definition showZ (z : Z) : string := NilZero.string_of_int (Z.to_int z).

(** [hay.includes(needle)] *)
Fixpoint includes (needle hay : string) : bool :=
  if String.prefix needle hay then true
  else match hay with
       | EmptyString => false
       | String _ rest => includes needle rest
       end.

Definition nl : string := String (ascii_of_nat 10) EmptyString.

Definition listRequest : request :=
  mkRequest (API_BASE_URL ++ "/") "GET"
    [("Accept", "application/json"); ("Content-Type", "application/json")]
    None (TimeoutSignal 10000).

Definition timeoutText : string :=
  "Timeout: Verifique se a API está rodando e o IP está correto.".

Definition unreachableText : string :=
  "Não foi possível conectar com a API." ++ nl ++ nl ++ "Verifique:" ++ nl
  ++ "• Se a API está rodando na porta 3000" ++ nl
  ++ "• Se o IP " ++ API_BASE_URL ++ " está correto" ++ nl
  ++ "• Se você está na mesma rede".

Definition fetchClientes : M Sys unit :=
  try_finally
    (try_catch
       (setLoading true ;;
        console_log "Tentando conectar em:" ;;
        response <- fetch listRequest ;;
        if negb (ok response)
        then throw (mkError true "Error"
                      ("HTTP error! status: " ++ showZ (status response)))
        else
          data <- await (json response) ;;
          console_log "Dados recebidos:" ;;
          setClientes (match data with DArray items => items | DOther => [] end))
       (fun error =>
          console_error "Erro detalhado:" ;;
          if isError error then
            if String.eqb (name error) "TimeoutError" then
              alert "Erro" timeoutText
            else if includes "Network request failed" (message error) then
              alert "Erro de Conexão" unreachableText
            else
              alert "Erro" ("Falha na conexão: " ++ message error)
          else ret tt))
    (setLoading false).

(** [isNaN(idade) || idade < 0 || idade > 150] *)
Definition idadeInvalida (idade : option Z) : bool :=
  match idade with
  | None => true
  | Some n => ((n <? 0) || (n >? 150))%Z
  end.

Definition validateForm (formData : FormData) : M Sys bool :=
  if isEmpty (trim (Nome formData)) then
    alert "Erro" "Nome é obrigatório" ;; ret false
  else if isEmpty (trim (Idade formData)) then
    alert "Erro" "Idade é obrigatória" ;; ret false
  else
    let idade := parseInt (Idade formData) in
    if idadeInvalida idade then
      alert "Erro" "Digite uma idade válida (0-150)" ;; ret false
    else if isEmpty (trim (UF formData)) then
      alert "Erro" "UF é obrigatória" ;; ret false
    else if negb (Nat.eqb (List.length (UF formData)) 2) then
      alert "Erro" "UF deve ter exatamente 2 caracteres" ;; ret false
    else ret true.

Definition emptyForm : FormData := mkForm [] [] [].

Definition resetForm : M Sys unit :=
  setFormData emptyForm ;;
  setEditingCliente None ;;
  setModalVisible false.

Definition closeDeleteModal : M Sys unit :=
  setDeletingCliente None ;;
  setDeleteModalVisible false.

Definition confirmDeleteCliente (cliente : Cliente) : M Sys unit :=
  setDeletingCliente (Some cliente) ;;
  setDeleteModalVisible true.

Definition openCreateModal : M Sys unit :=
  setEditingCliente None ;;
  setFormData emptyForm ;;
  setModalVisible true.

(** [n.toString()] of a Number holding an integer: its decimal digits, with
    a minus sign below zero (exact for the integers a Number holds exactly,
    up to 2^53 in magnitude). *)
Definition numberToString (n : Z) : jsstring := lit (showZ n).

Definition openEditModal (cliente : Cliente) : M Sys unit :=
  setEditingCliente (Some cliente) ;;
  setFormData (mkForm (cNome cliente) (numberToString (cIdade cliente))
                 (cUF cliente)) ;;
  setModalVisible true.

(** [keyof FormData] *)
Inductive field := FNome | FIdade | FUF.

(** [{ ...prev, [field]: value }] *)
Definition withField (prev : FormData) (fld : field) (value : jsstring) : FormData :=
  match fld with
  | FNome => mkForm value (Idade prev) (UF prev)
  | FIdade => mkForm (Nome prev) value (UF prev)
  | FUF => mkForm (Nome prev) (Idade prev) value
  end.

(** [setFormData(prev => ...)]: the update is computed from the state at
    the time it is applied, not from the render's snapshot. *)
Definition handleInputChange (fld : field) (value : jsstring) : M Sys unit :=
  setState (fun u => mkState (clientes u) (loading u) (modalVisible u)
                       (deleteModalVisible u) (editingCliente u)
                       (deletingCliente u) (withField (formData u) fld value)).

Definition connectionText : string :=
  "Erro de conexão. Verifique se a API está funcionando.".

Definition jsonHeaders : list (string * string) :=
  [("Content-Type", "application/json"); ("Accept", "application/json")].

Section Handlers.
Variable unicodeUpper : jsstring -> jsstring.

(** The body of the create and update requests. *)
Definition clientePayload (formData : FormData) : payload :=
  mkPayload (trim (Nome formData))
            (parseInt (Idade formData))
            (toUpperCase unicodeUpper (trim (UF formData))).

Definition createRequest (formData : FormData) : request :=
  mkRequest (API_BASE_URL ++ "/clientes") "POST" jsonHeaders
    (Some (clientePayload formData)) (TimeoutSignal 10000).

Definition updateRequest (editing : Cliente) (formData : FormData) : request :=
  mkRequest (API_BASE_URL ++ "/clientes/" ++ showZ (id editing)) "PUT"
    jsonHeaders (Some (clientePayload formData)) (TimeoutSignal 10000).

(** A handler closes over the state of the render it was made in: [snap]
    is that state, read but never written; writes go through the setters. *)
Definition createCliente (snap : State) : M Sys unit :=
  valid <- validateForm (formData snap) ;;
  if negb valid then ret tt
  else
    try_catch
      (response <- fetch (createRequest (formData snap)) ;;
       if ok response then
         alert "Sucesso" "Cliente criado com sucesso!" ;;
         resetForm ;;
         fetchClientes
       else
         errorData <- await (text response) ;;
         console_error "Erro na API:" ;;
         alert "Erro" "Não foi possível criar o cliente")
      (fun error =>
         console_error "Erro ao criar cliente:" ;;
         alert "Erro" connectionText).

Definition updateCliente (snap : State) : M Sys unit :=
  match editingCliente snap with
  | None => ret tt
  | Some editing =>
      valid <- validateForm (formData snap) ;;
      if negb valid then ret tt
      else
        try_catch
          (response <- fetch (updateRequest editing (formData snap)) ;;
           if ok response then
             alert "Sucesso" "Cliente atualizado com sucesso!" ;;
             resetForm ;;
             fetchClientes
           else
             errorData <- await (text response) ;;
             console_error "Erro na API:" ;;
             alert "Erro" "Não foi possível atualizar o cliente")
          (fun error =>
             console_error "Erro ao atualizar cliente:" ;;
             alert "Erro" connectionText)
  end.
End Handlers.

Definition deleteRequest (deleting : Cliente) : request :=
  mkRequest (API_BASE_URL ++ "/clientes/" ++ showZ (id deleting)) "DELETE"
    [("Accept", "application/json")] None ControllerSignal.

Definition deleteCliente (snap : State) : M Sys unit :=
  match deletingCliente snap with
  | None => ret tt
  | Some deleting =>
      try_catch
        (emit (SetTimeoutAbort 8000) ;;
         response <- fetch (deleteRequest deleting) ;;
         emit ClearTimeout ;;
         if ok response then
           alert "Sucesso" "Cliente deletado com sucesso!" ;;
           closeDeleteModal ;;
           fetchClientes
         else
           errorData <- await (text response) ;;
           console_error "Erro na API:" ;;
           alert "Erro" "Não foi possível deletar o cliente" ;;
           closeDeleteModal)
        (fun error =>
           console_error "Erro ao deletar cliente:" ;;
           closeDeleteModal ;;
           if String.eqb (name error) "AbortError" then
             alert "Timeout" "A operação demorou muito para responder."
           else
             alert "Erro" connectionText)
  end.

(** [onChangeText] of the UF input:
    [(text) => handleInputChange('UF', text.toUpperCase())]. *)
Definition onChangeUF (unicodeUpper : jsstring -> jsstring) (text : jsstring)
  : M Sys unit :=
  handleInputChange FUF (toUpperCase unicodeUpper text).

(** [onPress] of the save button, chosen when the modal is rendered:
    [editingCliente ? updateCliente : createCliente]. *)
Definition onSave (unicodeUpper : jsstring -> jsstring) (snap : State)
  : M Sys unit :=
  match editingCliente snap with
  | Some _ => updateCliente unicodeUpper snap
  | None => createCliente unicodeUpper snap
  end.

(** Running a handler: the system it leaves, and its completion. *)
Definition run {A} (m : M Sys A) (s : Sys) : Sys := snd (m s).
Definition result {A} (m : M Sys A) (s : Sys) : completion A := fst (m s).

(** The requests among some events. *)
Definition fetches (t : list event) : list request :=
  flat_map (fun ev => match ev with Fetch r => [r] | _ => [] end) t.

(** The alerts among some events, as (title, text). *)
Definition alerts (t : list event) : list (string * string) :=
  flat_map (fun ev => match ev with Alert a b => [(a, b)] | _ => [] end) t.

End FrontEnd.

(** ** Sample inputs *)

Module Samples.
Import JS FrontEnd.
Local Open Scope string_scope.

(** A network that settles the coming fetches with [script], in order, and
    every later one with [rest]. *)
Definition scripted (script : list (completion response))
    (rest : completion response) : nat -> completion response :=
  fun n => nth n script rest.

Definition created : response := mkResponse 201 (Normal DOther) (Normal "").
Definition serverError : response := mkResponse 500 (Normal DOther) (Normal "").
Definition ana : Cliente := mkCliente 1 (lit "Ana Silva") 30 (lit "SP").
Definition listed : response := mkResponse 200 (Normal (DArray [ana])) (Normal "").

Definition networkDown : jserror := mkError true "TypeError" "Network request failed".
Definition timedOut : jserror := mkError true "TimeoutError" "The operation timed out.".
Definition aborted : jserror := mkError true "AbortError" "Aborted".

Definition formAna : FormData := mkForm (lit "Ana Silva") (lit "30") (lit "sp").
(** UF is a blank followed by one letter. *)
Definition formPaddedUF : FormData := mkForm (lit "Ana Silva") (lit "30") (lit " a").
(** UF is two digits. *)
Definition formDigitsUF : FormData := mkForm (lit "Ana Silva") (lit "30") (lit "12").
Definition formNoName : FormData := mkForm (lit "  ") (lit "30") (lit "SP").
Definition formAge (idade : string) : FormData :=
  mkForm (lit "Ana Silva") (lit idade) (lit "SP").

Definition editing (f : FormData) : State :=
  mkState [ana] false true false (Some ana) None f.
Definition creating (f : FormData) : State :=
  mkState [ana] false true false None None f.
Definition confirming : State :=
  mkState [ana] false false true None (Some ana) emptyForm.

Definition start (u : State) (script : list (completion response)) : Sys :=
  mkSys u [] (scripted script (Throw networkDown)).

Definition sameUnits (s : jsstring) : jsstring := s.

End Samples.

(** ** Vocabulary of the statements *)

Module Outcomes.
Import JS FrontEnd.
Local Open Scope string_scope.

(** What a validated create or update submission [handler], sending
    [req], does in system [s], by the way its request settles: a 2xx
    response, another response, or a rejection. *)
Definition SubmissionOutcomes (handler : M Sys unit) (req : request)
    (okText failText label : string) (s : Sys) : Prop :=
  (forall r, net s 0%nat = Normal r -> ok r = true ->
     exists u' rest,
       run handler s
       = mkSys u'
           (trace s ++ Fetch req :: Alert "Sucesso" okText
              :: ConsoleLog "Tentando conectar em:" :: Fetch listRequest :: rest)
           (fun n => net s (S (S n)))
       /\ formData u' = emptyForm
       /\ editingCliente u' = None
       /\ modalVisible u' = false)
  /\ (forall r, net s 0%nat = Normal r -> ok r = false ->
        run handler s
        = mkSys (ui s)
            (trace s ++ Fetch req
               :: match text r with
                  | Normal _ => [ConsoleError "Erro na API:"; Alert "Erro" failText]
                  | Throw _ => [ConsoleError label; Alert "Erro" connectionText]
                  end)
            (fun n => net s (S n)))
  /\ (forall e, net s 0%nat = Throw e ->
        run handler s
        = mkSys (ui s)
            (trace s ++ [Fetch req; ConsoleError label; Alert "Erro" connectionText])
            (fun n => net s (S n))).

(** The requests a handler sends in system [s] when its own request is
    [req]: that one, and the list request after it when it is answered
    2xx. *)
Definition requestsOf (req : request) (s : Sys) : list request :=
  match net s 0%nat with
  | Normal r => if ok r then [req; listRequest] else [req]
  | Throw _ => [req]
  end.

(** A handler that sent nothing: at most one alert was shown, and the
    component state and the network are as before. *)
Definition SentNothing (handler : M Sys unit) (s : Sys) : Prop :=
  (run handler s = s
   \/ exists text,
       run handler s = mkSys (ui s) (trace s ++ [Alert "Erro" text]) (net s))
  /\ fetches (trace (run handler s)) = fetches (trace s).


End Outcomes.

(** ** The screen as a whole *)

Module Screen.
Import JS FrontEnd.

(** The initial values of the [useState] cells. *)
Definition initialState : State :=
  mkState [] false false false None None emptyForm.

(** What the user can do on the screen, by the handler the JSX wires to
    it. *)
Inductive action :=
| Refresh                               (* pull to refresh, retry button *)
| NewItem                               (* "+ Novo": [openCreateModal] *)
| EditItem (c : Cliente)                (* pencil on a row: [openEditModal(item)] *)
| AskDelete (c : Cliente)               (* bin on a row: [confirmDeleteCliente(item)] *)
| TypeField (fld : field) (text : jsstring)  (* Nome and Idade inputs *)
| TypeUF (text : jsstring)              (* UF input *)
| Save                                  (* save button of the form modal *)
| Cancel                                (* cancel, close and back: [resetForm] *)
| ConfirmDelete                         (* confirm button: [deleteCliente] *)
| CancelDelete.                         (* cancel and back: [closeDeleteModal] *)

(** The handler of an action, as made by the render of state [snap]. *)
Definition perform (unicodeUpper : jsstring -> jsstring) (a : action)
    (snap : State) : M Sys unit :=
  match a with
  | Refresh => fetchClientes
  | NewItem => openCreateModal
  | EditItem c => openEditModal c
  | AskDelete c => confirmDeleteCliente c
  | TypeField fld text => handleInputChange fld text
  | TypeUF text => onChangeUF unicodeUpper text
  | Save => onSave unicodeUpper snap
  | Cancel => resetForm
  | ConfirmDelete => deleteCliente snap
  | CancelDelete => closeDeleteModal
  end.

(** One action, run to its end on the screen as it is rendered. *)
Definition step (unicodeUpper : jsstring -> jsstring) (s : Sys) (a : action) : Sys :=
  run (perform unicodeUpper a (ui s)) s.



End Screen.

(** * Properties *)

Import JS.

(** ** Strings *)

Section StringFacts.
Local Open Scope N_scope.

Lemma between_spec lo hi c : between lo hi c = true <-> lo <= c <= hi.
Proof.
  unfold between. rewrite andb_true_iff, !N.leb_le. tauto.
Qed.

Lemma letter_not_space c : isLetterAZ c = true -> isWhiteSpace c = false.
Proof.
  unfold isLetterAZ, isUpperAZ, isLowerAZ. rewrite orb_true_iff, !between_spec.
  intros H. destruct (isWhiteSpace c) eqn:E; [exfalso | reflexivity].
  unfold isWhiteSpace in E.
  rewrite !orb_true_iff, !between_spec, !N.eqb_eq in E. lia.
Qed.

Lemma letter_ascii c : isLetterAZ c = true -> isAscii c = true.
Proof.
  unfold isLetterAZ, isUpperAZ, isLowerAZ, isAscii.
  rewrite orb_true_iff, !between_spec, N.ltb_lt. lia.
Qed.

Lemma letter_upper c : isLetterAZ c = true -> isUpperAZ (upperAscii c) = true.
Proof.
  unfold isLetterAZ, upperAscii. intros H.
  destruct (isLowerAZ c) eqn:L.
  - unfold isLowerAZ in L. unfold isUpperAZ.
    apply between_spec in L. apply between_spec. lia.
  - now rewrite orb_false_r in H.
Qed.

(** On ASCII text the engine's table is never consulted. *)
Lemma toUpperCase_ascii up s :
  forallb isAscii s = true -> toUpperCase up s = map upperAscii s.
Proof. intros H. unfold toUpperCase. now rewrite H. Qed.

(** Two letters are their own trim. *)
Lemma trim_two_letters a b :
  isLetterAZ a = true -> isLetterAZ b = true -> trim [a; b] = [a; b].
Proof.
  intros Ha Hb. apply letter_not_space in Ha, Hb.
  unfold trim, trimEnd. cbn [trimStart]. rewrite Ha.
  cbn [rev app trimStart]. rewrite Hb. reflexivity.
Qed.

Lemma trimStart_nil s : trimStart s = [] <-> forallb isWhiteSpace s = true.
Proof.
  induction s as [|c s IH]; simpl; [tauto|].
  destruct (isWhiteSpace c); simpl; [exact IH|].
  split; discriminate.
Qed.

Lemma trimStart_idem s : trimStart (trimStart s) = trimStart s.
Proof.
  induction s as [|c s IH]; simpl; [reflexivity|].
  destruct (isWhiteSpace c) eqn:W; [exact IH|].
  simpl. now rewrite W.
Qed.

(** A blank text stays blank for [parseInt], which skips the same white
    space at the start. *)
Lemma trim_nil_trimStart s : trim s = [] -> trimStart s = [].
Proof.
  unfold trim, trimEnd. intros H.
  apply (f_equal (@rev N)) in H. rewrite rev_involutive in H. simpl in H.
  apply trimStart_nil in H.
  rewrite <- trimStart_idem. apply trimStart_nil.
  apply forallb_forall. intros x Hx.
  rewrite forallb_forall in H. apply H. now apply in_rev in Hx.
Qed.
End StringFacts.

(** ** Form validation *)

Import FrontEnd Samples.
Local Open Scope string_scope.

Lemma sys_eta s : mkSys (ui s) (trace s) (net s) = s.
Proof. now destruct s. Qed.

Ltac unfold_js :=
  cbv [bind ret throw try_catch try_finally await modify
       emit alert console_log console_error fetch setState].

(** What an accepting run of [validateForm] has checked; it leaves the
    system as it found it. *)
Lemma validateForm_accepts f s :
  result (validateForm f) s = Normal true ->
  validateForm f s = (Normal true, s)
  /\ isEmpty (trim (Nome f)) = false
  /\ isEmpty (trim (Idade f)) = false
  /\ idadeInvalida (parseInt (Idade f)) = false
  /\ isEmpty (trim (UF f)) = false
  /\ List.length (UF f) = 2%nat.
Proof.
  unfold result, validateForm.
  destruct (isEmpty (trim (Nome f))); [unfold_js; discriminate|].
  destruct (isEmpty (trim (Idade f))); [unfold_js; discriminate|].
  destruct (idadeInvalida (parseInt (Idade f))); [unfold_js; discriminate|].
  destruct (isEmpty (trim (UF f))); [unfold_js; discriminate|].
  destruct (Nat.eqb (List.length (UF f)) 2) eqn:L; [|unfold_js; discriminate].
  apply Nat.eqb_eq in L. intros _. unfold_js. tauto.
Qed.

Lemma validateForm_passes f s :
  isEmpty (trim (Nome f)) = false ->
  isEmpty (trim (Idade f)) = false ->
  idadeInvalida (parseInt (Idade f)) = false ->
  isEmpty (trim (UF f)) = false ->
  List.length (UF f) = 2%nat ->
  validateForm f s = (Normal true, s).
Proof.
  intros H1 H2 H3 H4 H5. unfold validateForm.
  rewrite H1, H2, H3, H4, H5. reflexivity.
Qed.

(** A refusing run shows one alert and does nothing else. *)
Lemma validateForm_rejects f s :
  result (validateForm f) s = Normal false ->
  exists text,
    validateForm f s
    = (Normal false, mkSys (ui s) (trace s ++ [Alert "Erro" text]) (net s)).
Proof.
  unfold result, validateForm.
  destruct (isEmpty (trim (Nome f))); [intros _; eexists; reflexivity|].
  destruct (isEmpty (trim (Idade f))); [intros _; eexists; reflexivity|].
  destruct (idadeInvalida (parseInt (Idade f))); [intros _; eexists; reflexivity|].
  destruct (isEmpty (trim (UF f))); [intros _; eexists; reflexivity|].
  destruct (Nat.eqb (List.length (UF f)) 2);
    [discriminate | intros _; eexists; reflexivity].
Qed.

Lemma idadeInvalida_spec idade :
  idadeInvalida idade = false <-> exists n, idade = Some n /\ 0 <= n <= 150.
Proof.
  unfold idadeInvalida. destruct idade as [n|].
  - rewrite orb_false_iff, Z.ltb_ge, Z.gtb_ltb, Z.ltb_ge. split.
    + intros H. exists n. split; [reflexivity | lia].
    + intros (m & E & H). injection E as ->. lia.
  - split; [discriminate | intros (m & E & _); discriminate].
Qed.

Lemma parseInt_blank s : isEmpty (trim s) = true -> parseInt s = None.
Proof.
  intros H. destruct (trim s) eqn:E; [|discriminate].
  apply trim_nil_trimStart in E. unfold parseInt. now rewrite E.
Qed.

(** C1, as amended. For every form state accepted by [validateForm] whose UF
    field consists of letters (A-Z, a-z) only, the UF value in the body of
    the create request and of the update request, the field trimmed and
    upper-cased, consists of exactly two uppercase letters. *)
Theorem submitted_UF_of_letters_is_two_uppercase :
  forall (up : jsstring -> jsstring) (f : FormData) (s : Sys) (editing : Cliente),
    result (validateForm f) s = Normal true ->
    forallb isLetterAZ (UF f) = true ->
    (exists p, body (createRequest up f) = Some p
               /\ pUF p = toUpperCase up (trim (UF f))
               /\ twoUpperLetters (pUF p) = true)
    /\ (exists p, body (updateRequest up editing f) = Some p
                  /\ pUF p = toUpperCase up (trim (UF f))
                  /\ twoUpperLetters (pUF p) = true).
Proof.
  intros up f s editing Hv Hl.
  apply validateForm_accepts in Hv. destruct Hv as (_ & _ & _ & _ & _ & Hlen).
  assert (T : twoUpperLetters (toUpperCase up (trim (UF f))) = true).
  { destruct (UF f) as [|a [|b [|c r]]]; try discriminate Hlen.
    simpl in Hl. rewrite !andb_true_iff in Hl. destruct Hl as (Ha & Hb & _).
    rewrite trim_two_letters by assumption.
    rewrite toUpperCase_ascii
      by (simpl; now rewrite (letter_ascii a Ha), (letter_ascii b Hb)).
    unfold twoUpperLetters. simpl.
    now rewrite (letter_upper a Ha), (letter_upper b Hb). }
  split; eexists; (split; [reflexivity | split; [reflexivity | exact T]]).
Qed.

Lemma submitted_UF_of_letters_witness :
  (exists p, body (createRequest sameUnits formAna) = Some p
             /\ pUF p = toUpperCase sameUnits (trim (UF formAna))
             /\ twoUpperLetters (pUF p) = true)
  /\ (exists p, body (updateRequest sameUnits ana formAna) = Some p
                /\ pUF p = toUpperCase sameUnits (trim (UF formAna))
                /\ twoUpperLetters (pUF p) = true).
Proof.
  apply (submitted_UF_of_letters_is_two_uppercase sameUnits formAna
           (start (creating formAna) []) ana); reflexivity.
Defined.

(** C1 fails as stated: a UF of a blank and one letter is accepted and
    submitted as the single letter, and a UF of two digits is accepted and
    submitted as it is. *)
Lemma accepted_UF_not_two_letters :
  result (validateForm formPaddedUF) (start (creating formPaddedUF) []) = Normal true
  /\ pUF (clientePayload sameUnits formPaddedUF) = lit "A"
  /\ twoUpperLetters (pUF (clientePayload sameUnits formPaddedUF)) = false
  /\ result (validateForm formDigitsUF) (start (creating formDigitsUF) []) = Normal true
  /\ pUF (clientePayload sameUnits formDigitsUF) = lit "12"
  /\ twoUpperLetters (pUF (clientePayload sameUnits formDigitsUF)) = false.
Proof. repeat split; reflexivity. Qed.

(** C2, as amended. The age rule accepts exactly the texts to which
    [parseInt] gives an integer in [0, 150]: white space before the number,
    a sign, a 0x prefix and any text after the digits are tolerated. It
    accepts "0" and "150", refuses "-1" and "151", and refuses every text
    to which [parseInt] gives NaN. *)
Theorem age_rule_follows_parseInt :
  (forall (f : FormData) (s : Sys),
      isEmpty (trim (Nome f)) = false ->
      isEmpty (trim (UF f)) = false ->
      List.length (UF f) = 2%nat ->
      (result (validateForm f) s = Normal true
       <-> exists n, parseInt (Idade f) = Some n /\ 0 <= n <= 150))
  /\ (forall s, result (validateForm (formAge "0")) s = Normal true)
  /\ (forall s, result (validateForm (formAge "150")) s = Normal true)
  /\ (forall s, result (validateForm (formAge "-1")) s = Normal false)
  /\ (forall s, result (validateForm (formAge "151")) s = Normal false)
  /\ (forall (f : FormData) (s : Sys),
         parseInt (Idade f) = None -> result (validateForm f) s = Normal false).
Proof.
  split; [|repeat split; try reflexivity].
  - intros f s Hn Hu Hl. rewrite <- idadeInvalida_spec. split.
    + intros H. now apply validateForm_accepts in H.
    + intros H. unfold result. rewrite validateForm_passes; try assumption.
      * reflexivity.
      * destruct (isEmpty (trim (Idade f))) eqn:E; [|reflexivity].
        apply parseInt_blank in E. rewrite E in H. discriminate H.
  - intros f s H. unfold result, validateForm. rewrite H.
    destruct (isEmpty (trim (Nome f))); [reflexivity|].
    destruct (isEmpty (trim (Idade f))); reflexivity.
Qed.

Lemma age_rule_witness :
  result (validateForm (formAge "42")) (start (creating (formAge "42")) [])
  = Normal true
  <-> exists n, parseInt (Idade (formAge "42")) = Some n /\ 0 <= n <= 150.
Proof.
  apply (proj1 age_rule_follows_parseInt (formAge "42")
           (start (creating (formAge "42")) [])); reflexivity.
Defined.

(** C2 fails as stated: "12a" is not numeric text and the age rule accepts
    it, as the age 12. *)
Lemma age_text_12a_is_accepted :
  numericText (lit "12a") = false
  /\ parseInt (lit "12a") = Some 12
  /\ result (validateForm (formAge "12a")) (start (creating (formAge "12a")) [])
     = Normal true.
Proof. repeat split; reflexivity. Qed.

(** ** Handlers of the client application *)

Import Outcomes.

Ltac proj_simpl :=
  cbn [ui trace net clientes loading modalVisible deleteModalVisible
       editingCliente deletingCliente formData fst snd negb].
Ltac norm_trace := cbv beta iota; proj_simpl; rewrite <- ?app_assoc; cbn [app].

Lemma fetches_app t1 t2 :
  (fetches (t1 ++ t2) = fetches t1 ++ fetches t2)%list.
Proof. unfold fetches. apply flat_map_app. Qed.

(** [fetchClientes] never throws: it sends the list request, leaves the
    form and both modals alone, and ends with [loading] off. *)
Lemma fetchClientes_runs s :
  exists u' rest,
    fetchClientes s
    = (Normal tt,
       mkSys u'
         (trace s ++ ConsoleLog "Tentando conectar em:" :: Fetch listRequest :: rest)
         (fun n => net s (S n)))
    /\ formData u' = formData (ui s)
    /\ editingCliente u' = editingCliente (ui s)
    /\ modalVisible u' = modalVisible (ui s)
    /\ deletingCliente u' = deletingCliente (ui s)
    /\ deleteModalVisible u' = deleteModalVisible (ui s)
    /\ loading u' = false.
Proof.
  unfold fetchClientes, setLoading, setClientes. unfold_js. proj_simpl.
  destruct (net s 0%nat) as [r|e].
  - destruct (ok r); cbn [negb].
    + destruct (json r) as [d|e].
      * do 2 eexists. split; [norm_trace; reflexivity | proj_simpl; tauto].
      * destruct (isError e); [destruct (String.eqb (name e) "TimeoutError");
          [| destruct (includes "Network request failed" (message e))] |];
          do 2 eexists; (split; [norm_trace; reflexivity | proj_simpl; tauto]).
    + cbn [isError name message].
      change (String.eqb "Error" "TimeoutError") with false. cbv iota.
      destruct (includes _ _);
        do 2 eexists; (split; [norm_trace; reflexivity | proj_simpl; tauto]).
  - destruct (isError e); [destruct (String.eqb (name e) "TimeoutError");
      [| destruct (includes "Network request failed" (message e))] |];
      do 2 eexists; (split; [norm_trace; reflexivity | proj_simpl; tauto]).
Qed.

Ltac unfold_handlers :=
  cbv [resetForm closeDeleteModal setFormData setEditingCliente setModalVisible
       setDeletingCliente setDeleteModalVisible];
  unfold_js.

(** The run of [fetchClientes] that ends a successful submission. *)
Ltac refetch u rest F :=
  match goal with
  | |- context [fetchClientes ?s1] =>
      destruct (fetchClientes_runs s1) as (u & rest & F); rewrite (proj1 F)
  end.

(** C4. For every form state in which validation fails, the create and the
    update handler send no request: validation comes first, shows its one
    alert, and the handler returns; the update handler returns even before
    validating when no record is being edited. *)
Theorem invalid_form_sends_no_request :
  forall (up : jsstring -> jsstring) (snap : State) (s : Sys),
    result (validateForm (formData snap)) s = Normal false ->
    SentNothing (createCliente up snap) s
    /\ SentNothing (updateCliente up snap) s.
Proof.
  intros up snap s H. destruct (validateForm_rejects _ _ H) as [txt E].
  assert (A : fetches (trace s ++ [Alert "Erro" txt]) = fetches (trace s)).
  { rewrite fetches_app. cbn. apply app_nil_r. }
  unfold SentNothing, run, createCliente, updateCliente. split.
  - unfold bind. rewrite E. cbn. split; [right; eexists; reflexivity | exact A].
  - destruct (editingCliente snap).
    + unfold bind. rewrite E. cbn. split; [right; eexists; reflexivity | exact A].
    + cbn. split; [left|]; reflexivity.
Qed.

Lemma invalid_form_witness :
  SentNothing (createCliente sameUnits (creating formNoName))
    (start (creating formNoName) [Normal created])
  /\ SentNothing (updateCliente sameUnits (editing formNoName))
       (start (editing formNoName) [Normal created]).
Proof.
  split.
  - apply (invalid_form_sends_no_request sameUnits (creating formNoName)).
    reflexivity.
  - apply (invalid_form_sends_no_request sameUnits (editing formNoName)).
    reflexivity.
Defined.

Ltac enter_submission E :=
  unfold bind at 1; rewrite E; cbn [negb]; unfold_handlers; proj_simpl.

Ltac submission H :=
  let E := fresh "E" in
  apply validateForm_accepts in H; destruct H as (E & _);
  unfold SubmissionOutcomes, run;
  repeat split;
  [ intros r Hr Hok; enter_submission E; rewrite Hr, Hok;
    let u := fresh "u" in let rest := fresh "rest" in let F := fresh "F" in
    refetch u rest F; exists u, rest;
    split; [norm_trace; reflexivity
           | destruct F as (_ & -> & -> & -> & _); proj_simpl; tauto]
  | intros r Hr Hok; enter_submission E; rewrite Hr, Hok;
    destruct (text r); norm_trace; reflexivity
  | intros e He; enter_submission E; rewrite He; norm_trace; reflexivity ].

(** C5. For every validated create or update submission: on a 2xx response
    the form is cleared (fields emptied, edited record dropped, form modal
    closed) and the list is fetched again; on any other response and on a
    rejected request one fixed failure message is shown and the component
    state, the form included, stays as it was. *)
Theorem validated_submission_outcomes :
  forall (up : jsstring -> jsstring) (snap : State) (s : Sys),
    result (validateForm (formData snap)) s = Normal true ->
    SubmissionOutcomes (createCliente up snap)
      (createRequest up (formData snap))
      "Cliente criado com sucesso!" "Não foi possível criar o cliente"
      "Erro ao criar cliente:" s
    /\ forall editing, editingCliente snap = Some editing ->
         SubmissionOutcomes (updateCliente up snap)
           (updateRequest up editing (formData snap))
           "Cliente atualizado com sucesso!" "Não foi possível atualizar o cliente"
           "Erro ao atualizar cliente:" s.
Proof.
  intros up snap s H. split.
  - unfold createCliente. submission H.
  - intros c Hc. unfold updateCliente. rewrite Hc. submission H.
Qed.

Lemma validated_submission_witness :
  SubmissionOutcomes (createCliente sameUnits (creating formAna))
    (createRequest sameUnits formAna)
    "Cliente criado com sucesso!" "Não foi possível criar o cliente"
    "Erro ao criar cliente:" (start (creating formAna) [Normal created; Normal listed])
  /\ SubmissionOutcomes (updateCliente sameUnits (editing formAna))
       (updateRequest sameUnits ana formAna)
       "Cliente atualizado com sucesso!" "Não foi possível atualizar o cliente"
       "Erro ao atualizar cliente:" (start (editing formAna) [Normal serverError]).
Proof.
  split.
  - apply (validated_submission_outcomes sameUnits (creating formAna)).
    reflexivity.
  - apply (validated_submission_outcomes sameUnits (editing formAna));
      reflexivity.
Defined.

(** A run of [deleteCliente] with a record to delete: the timer, the
    request, a normal end, and the modal closed on every path. *)
Lemma deleteCliente_runs snap s c :
  deletingCliente snap = Some c ->
  (exists rest,
      trace (run (deleteCliente snap) s)
      = (trace s ++ SetTimeoutAbort 8000 :: Fetch (deleteRequest c) :: rest)%list)
  /\ result (deleteCliente snap) s = Normal tt
  /\ deleteModalVisible (ui (run (deleteCliente snap) s)) = false
  /\ deletingCliente (ui (run (deleteCliente snap) s)) = None.
Proof.
  intros H. unfold run, result, deleteCliente. rewrite H.
  unfold_handlers. proj_simpl.
  destruct (net s 0%nat) as [r|e].
  - destruct (ok r).
    + refetch u rest F. destruct F as (_ & _ & _ & _ & Hd & Hm & _).
      proj_simpl. rewrite Hd, Hm. proj_simpl.
      repeat split. eexists. norm_trace. reflexivity.
    + destruct (text r) as [t|e];
        [| destruct (String.eqb (name e) "AbortError")];
        proj_simpl; repeat split; eexists; norm_trace; reflexivity.
  - destruct (String.eqb (name e) "AbortError"); proj_simpl; repeat split;
      eexists; norm_trace; reflexivity.
Qed.

(** C6. Every run of [deleteCliente] that sends the request ends normally
    with the confirmation modal closed and the record being deleted reset
    to null, whatever the request settles with: a 2xx response, another
    response, an abort by the timer, or any other rejection.
    [closeDeleteModal] itself does both. *)
Theorem delete_attempt_always_closes_modal :
  (forall (snap : State) (s : Sys) (c : Cliente),
      deletingCliente snap = Some c ->
      (exists rest,
          trace (run (deleteCliente snap) s)
          = (trace s ++ SetTimeoutAbort 8000 :: Fetch (deleteRequest c) :: rest)%list)
      /\ result (deleteCliente snap) s = Normal tt
      /\ deleteModalVisible (ui (run (deleteCliente snap) s)) = false
      /\ deletingCliente (ui (run (deleteCliente snap) s)) = None)
  /\ (forall s : Sys,
         deleteModalVisible (ui (run closeDeleteModal s)) = false
         /\ deletingCliente (ui (run closeDeleteModal s)) = None).
Proof.
  split; [|intros s; split; reflexivity].
  intros snap s c H. now apply deleteCliente_runs.
Qed.

Lemma delete_attempt_witness :
  (exists rest,
      trace (run (deleteCliente confirming) (start confirming [Throw aborted]))
      = (trace (start confirming [Throw aborted])
         ++ SetTimeoutAbort 8000 :: Fetch (deleteRequest ana) :: rest)%list)
  /\ result (deleteCliente confirming) (start confirming [Throw aborted]) = Normal tt
  /\ deleteModalVisible
       (ui (run (deleteCliente confirming) (start confirming [Throw aborted]))) = false
  /\ deletingCliente
       (ui (run (deleteCliente confirming) (start confirming [Throw aborted]))) = None.
Proof.
  apply (proj1 delete_attempt_always_closes_modal confirming
           (start confirming [Throw aborted]) ana).
  reflexivity.
Defined.

Lemma timeoutText_not_unreachable : unreachableText <> timeoutText.
Proof. cbv. discriminate. Qed.

Lemma timeoutText_not_failure m : "Falha na conexão: " ++ m <> timeoutText.
Proof. cbn. discriminate. Qed.

(** C9. The list request carries [AbortSignal.timeout(10000)]; the delete
    request carries the signal of its own controller, which a timer armed
    just before aborts after 8000 ms. In the list flow a rejection named
    TimeoutError shows the timeout text and no other rejection shows it; in
    the delete flow a rejection named AbortError shows the "Timeout" alert
    and every other rejection the connection alert, whose text differs. *)
Theorem timeouts_and_their_messages :
  (forall s : Sys, exists rest,
      trace (run fetchClientes s)
      = (trace s ++ ConsoleLog "Tentando conectar em:"
           :: Fetch listRequest :: rest)%list)
  /\ reqSignal listRequest = TimeoutSignal 10000
  /\ (forall (s : Sys) (e : jserror),
         net s 0%nat = Throw e -> isError e = true -> name e = "TimeoutError" ->
         trace (run fetchClientes s)
         = (trace s ++ [ConsoleLog "Tentando conectar em:"; Fetch listRequest;
                        ConsoleError "Erro detalhado:";
                        Alert "Erro" timeoutText])%list)
  /\ (forall (s : Sys) (e : jserror),
         net s 0%nat = Throw e -> name e <> "TimeoutError" ->
         exists shown,
           trace (run fetchClientes s)
           = (trace s ++ ConsoleLog "Tentando conectar em:" :: Fetch listRequest
                :: ConsoleError "Erro detalhado:" :: shown)%list
           /\ forall title, ~ In (Alert title timeoutText) shown)
  /\ (forall (snap : State) (s : Sys) (c : Cliente),
         deletingCliente snap = Some c ->
         exists rest,
           trace (run (deleteCliente snap) s)
           = (trace s ++ SetTimeoutAbort 8000 :: Fetch (deleteRequest c) :: rest)%list)
  /\ (forall c : Cliente, reqSignal (deleteRequest c) = ControllerSignal)
  /\ (forall (snap : State) (s : Sys) (c : Cliente) (e : jserror),
         deletingCliente snap = Some c ->
         net s 0%nat = Throw e -> name e = "AbortError" ->
         trace (run (deleteCliente snap) s)
         = (trace s ++ [SetTimeoutAbort 8000; Fetch (deleteRequest c);
                        ConsoleError "Erro ao deletar cliente:";
                        Alert "Timeout" "A operação demorou muito para responder."])%list)
  /\ (forall (snap : State) (s : Sys) (c : Cliente) (e : jserror),
         deletingCliente snap = Some c ->
         net s 0%nat = Throw e -> name e <> "AbortError" ->
         trace (run (deleteCliente snap) s)
         = (trace s ++ [SetTimeoutAbort 8000; Fetch (deleteRequest c);
                        ConsoleError "Erro ao deletar cliente:";
                        Alert "Erro" connectionText])%list)
  /\ connectionText <> "A operação demorou muito para responder.".
Proof.
  repeat match goal with |- _ /\ _ => split end.
  - intros s. destruct (fetchClientes_runs s) as (u & rest & F & _).
    exists rest. unfold run. now rewrite F.
  - reflexivity.
  - intros s e He Hi Hn. unfold run, fetchClientes, setLoading, setClientes.
    unfold_js. proj_simpl. rewrite He, Hi, Hn. rewrite String.eqb_refl.
    norm_trace. reflexivity.
  - intros s e He Hn. apply String.eqb_neq in Hn.
    unfold run, fetchClientes, setLoading, setClientes.
    unfold_js. proj_simpl. rewrite He, Hn.
    destruct (isError e);
      [destruct (includes "Network request failed" (message e))|];
      eexists; (split; [norm_trace; reflexivity|]); intros title A;
      cbn [In] in A; [destruct A as [A|[]] | destruct A as [A|[]] | exact A];
      injection A as _ A.
    + now apply timeoutText_not_unreachable.
    + now apply (timeoutText_not_failure (message e)).
  - intros snap s c H. now apply deleteCliente_runs.
  - reflexivity.
  - intros snap s c e H He Hn. unfold run, deleteCliente. rewrite H.
    unfold_handlers. proj_simpl. rewrite He, Hn. rewrite String.eqb_refl.
    norm_trace. reflexivity.
  - intros snap s c e H He Hn. apply String.eqb_neq in Hn.
    unfold run, deleteCliente. rewrite H.
    unfold_handlers. proj_simpl. rewrite He, Hn.
    norm_trace. reflexivity.
  - cbv. discriminate.
Qed.

Lemma timeouts_witness :
  trace (run fetchClientes (start (creating emptyForm) [Throw timedOut]))
  = [ConsoleLog "Tentando conectar em:"; Fetch listRequest;
     ConsoleError "Erro detalhado:"; Alert "Erro" timeoutText]
  /\ (exists shown,
         trace (run fetchClientes (start (creating emptyForm) [Throw networkDown]))
         = ConsoleLog "Tentando conectar em:" :: Fetch listRequest
             :: ConsoleError "Erro detalhado:" :: shown
         /\ forall title, ~ In (Alert title timeoutText) shown)
  /\ trace (run (deleteCliente confirming) (start confirming [Throw aborted]))
     = [SetTimeoutAbort 8000; Fetch (deleteRequest ana);
        ConsoleError "Erro ao deletar cliente:";
        Alert "Timeout" "A operação demorou muito para responder."]
  /\ trace (run (deleteCliente confirming) (start confirming [Throw networkDown]))
     = [SetTimeoutAbort 8000; Fetch (deleteRequest ana);
        ConsoleError "Erro ao deletar cliente:"; Alert "Erro" connectionText].
Proof.
  destruct timeouts_and_their_messages
    as (_ & _ & H3 & H4 & _ & _ & H7 & H8 & _).
  repeat match goal with |- _ /\ _ => split end.
  - apply (H3 (start (creating emptyForm) [Throw timedOut]) timedOut);
      reflexivity.
  - apply (H4 (start (creating emptyForm) [Throw networkDown]) networkDown);
      [reflexivity | discriminate].
  - apply (H7 confirming (start confirming [Throw aborted]) ana aborted);
      reflexivity.
  - apply (H8 confirming (start confirming [Throw networkDown]) ana networkDown);
      [reflexivity | reflexivity | discriminate].
Defined.

(** ** Routes of the API service *)

Section RouteFacts.
Import BackEnd.

Variable DB : Type.
Variable selectFull : M DB jsval.
Variable selectById : string -> M DB jsval.
Variable deleteById : string -> M DB jsval.
Variable insertCliente : jsval -> jsval -> jsval -> M DB jsval.
Variable updateCliente : jsval -> jsval -> jsval -> string -> M DB jsval.

Local Abbreviation route :=
  (handle DB selectFull selectById deleteById insertCliente updateCliente).
Local Abbreviation storage :=
  (storageCall DB selectFull selectById deleteById insertCliente updateCliente).

Ltac unfold_route :=
  cbv [handle storageCall get_root get_cliente post_cliente put_cliente
       delete_cliente destructure bind ret throw try_catch res_json
       res_status_json].

(** C3. The delete route answers 200 with the success message when the
    storage delete returns a truthy value (a record was removed), 404 with
    the not-found error when it returns a falsy one (no record matched) and
    500 with a fixed error when it throws. So a delete that removes the
    record, followed by a delete of the same id that finds none, is
    answered 200 and then 404. *)
Theorem delete_route_responses :
  forall (req : request) (db : DB),
    (forall v db',
        deleteById (params_id req) db = (Normal v, db') -> truthy v = true ->
        route Delete req db
        = (Normal (mkResponse 200 (msg "Cliente deletado com sucesso")), db'))
    /\ (forall v db',
           deleteById (params_id req) db = (Normal v, db') -> truthy v = false ->
           route Delete req db
           = (Normal (mkResponse 404 (err "Cliente não encontrado")), db'))
    /\ (forall e db',
           deleteById (params_id req) db = (Throw e, db') ->
           route Delete req db
           = (Normal (mkResponse 500 (err "Erro ao deletar cliente")), db'))
    /\ (forall v1 db1 v2 db2,
           deleteById (params_id req) db = (Normal v1, db1) -> truthy v1 = true ->
           deleteById (params_id req) db1 = (Normal v2, db2) -> truthy v2 = false ->
           route Delete req db
           = (Normal (mkResponse 200 (msg "Cliente deletado com sucesso")), db1)
           /\ route Delete req db1
              = (Normal (mkResponse 404 (err "Cliente não encontrado")), db2)).
Proof.
  intros req db.
  assert (Hok : forall d v d',
             deleteById (params_id req) d = (Normal v, d') ->
             route Delete req d
             = (Normal (if truthy v
                        then mkResponse 200 (msg "Cliente deletado com sucesso")
                        else mkResponse 404 (err "Cliente não encontrado")), d')).
  { intros d v d' H. unfold_route. rewrite H. now destruct (truthy v). }
  repeat match goal with |- _ /\ _ => split end.
  - intros v db' H T. rewrite (Hok _ _ _ H), T. reflexivity.
  - intros v db' H T. rewrite (Hok _ _ _ H), T. reflexivity.
  - intros e db' H. unfold_route. now rewrite H.
  - intros v1 db1 v2 db2 H1 T1 H2 T2.
    rewrite (Hok _ _ _ H1), (Hok _ _ _ H2), T1, T2. split; reflexivity.
Qed.

(** C7. On every endpoint, when the storage call throws, the answer is
    status 500 with the endpoint's own fixed error text, whatever was
    thrown; the five texts are pairwise different. *)
Theorem storage_failure_gives_static_500 :
  (forall (ep : endpoint) (req : request) (db : DB) (e : jserror) (db' : DB),
      storage ep req db = (Throw e, db') ->
      fst (route ep req db)
      = Normal (mkResponse 500 (err (failureText ep))))
  /\ (forall ep1 ep2 : endpoint, failureText ep1 = failureText ep2 -> ep1 = ep2).
Proof.
  split.
  - intros ep req db e db' H. destruct ep; revert H; unfold_route; intros H;
      try (rewrite H; reflexivity);
      (destruct (nullish (body req)); [reflexivity | rewrite H; reflexivity]).
  - intros [] []; cbv; intros H; try reflexivity; discriminate H.
Qed.

(** C8. A POST /clientes whose body supplies Nome, Idade and UF, when the
    storage insert returns, is answered 201 with the body
    {"message":"Cliente criado com sucesso"}. *)
Theorem create_route_responds_201 :
  forall (req : request) (db : DB) (fields : list (string * jsval))
         (n i u v : jsval) (db' : DB),
    body req = VObj fields ->
    lookup "Nome" fields = Some n ->
    lookup "Idade" fields = Some i ->
    lookup "UF" fields = Some u ->
    insertCliente n i u db = (Normal v, db') ->
    route Create req db
    = (Normal (mkResponse 201 (msg "Cliente criado com sucesso")), db').
Proof.
  intros req db fields n i u v db' Hb Hn Hi Hu H.
  unfold_route. rewrite Hb. cbn [nullish getProp].
  rewrite Hn, Hi, Hu, H. reflexivity.
Qed.

(** C10. The update route answers 200 with the success message whenever
    the storage call returns, whatever it returns: the result, and with it
    the number of rows changed, is never looked at. No request is answered
    404: the status is 200 or 500. *)
Theorem update_route_never_answers_404 :
  (forall (req : request) (db : DB) (v : jsval) (db' : DB),
      nullish (body req) = false ->
      storage Update req db = (Normal v, db') ->
      route Update req db
      = (Normal (mkResponse 200 (msg "Cliente atualizado com sucesso")), db'))
  /\ (forall (req : request) (db : DB),
         exists r db',
           route Update req db = (Normal r, db')
           /\ (status r = 200 \/ status r = 500)).
Proof.
  split.
  - intros req db v db' Hb H. revert H. unfold_route. rewrite Hb.
    intros H. rewrite H. reflexivity.
  - intros req db. unfold_route.
    destruct (nullish (body req)); [do 2 eexists; split; [reflexivity | now right]|].
    destruct (updateCliente _ _ _ _ db) as [[v|e] db'];
      do 2 eexists; (split; [reflexivity|]); [now left | now right].
Qed.

End RouteFacts.

(** ** The routes over the modelled table *)

Section StoreFacts.
Import BackEnd SpecStore.

Lemma delete_route_witness :
  serve Delete (mkRequest "1" VUndefined) oneRowDB
  = (Normal (mkResponse 200 (msg "Cliente deletado com sucesso")), mkDB [] 2 true)
  /\ serve Delete (mkRequest "1" VUndefined) (mkDB [] 2 true)
     = (Normal (mkResponse 404 (err "Cliente não encontrado")), mkDB [] 2 true)
  /\ serve Delete (mkRequest "1" VUndefined) offlineDB
     = (Normal (mkResponse 500 (err "Erro ao deletar cliente")), offlineDB).
Proof.
  destruct (delete_route_responses DB selectFull selectById deleteById
              insertCliente updateCliente (mkRequest "1" VUndefined) oneRowDB)
    as (_ & _ & _ & H4).
  destruct (delete_route_responses DB selectFull selectById deleteById
              insertCliente updateCliente (mkRequest "1" VUndefined) offlineDB)
    as (_ & _ & H3 & _).
  destruct (H4 (VBool true) (mkDB [] 2 true) (VBool false) (mkDB [] 2 true)
              eq_refl eq_refl eq_refl eq_refl) as [A B].
  split; [exact A | split; [exact B |]].
  apply (H3 unavailable offlineDB). reflexivity.
Defined.

Lemma storage_failure_witness :
  fst (serve List (mkRequest "" VUndefined) offlineDB)
  = Normal (mkResponse 500 (err (failureText List)))
  /\ fst (serve Create (mkRequest "" anaSilva) offlineDB)
     = Normal (mkResponse 500 (err (failureText Create))).
Proof.
  split.
  - apply (proj1 (storage_failure_gives_static_500 DB selectFull selectById
                    deleteById insertCliente updateCliente)
             List (mkRequest "" VUndefined) offlineDB unavailable offlineDB).
    reflexivity.
  - apply (proj1 (storage_failure_gives_static_500 DB selectFull selectById
                    deleteById insertCliente updateCliente)
             Create (mkRequest "" anaSilva) offlineDB unavailable offlineDB).
    reflexivity.
Defined.

(** The example of the specification: POST /clientes with
    {"Nome":"Ana Silva","Idade":30,"UF":"SP"} on an empty table. *)
Lemma create_route_witness :
  serve Create (mkRequest "" anaSilva) emptyDB
  = (Normal (mkResponse 201 (msg "Cliente criado com sucesso")), oneRowDB).
Proof.
  apply (create_route_responds_201 DB selectFull selectById deleteById
           insertCliente updateCliente (mkRequest "" anaSilva) emptyDB
           [("Nome", VStr "Ana Silva"); ("Idade", VNum 30); ("UF", VStr "SP")]
           (VStr "Ana Silva") (VNum 30) (VStr "SP") VUndefined oneRowDB);
    reflexivity.
Defined.

(** PUT /clientes/7 on a table whose only record has id 1. *)
Lemma update_route_witness :
  find (matches "7") (rows oneRowDB) = None
  /\ serve Update (mkRequest "7" anaSilva) oneRowDB
     = (Normal (mkResponse 200 (msg "Cliente atualizado com sucesso")), oneRowDB).
Proof.
  split; [reflexivity|].
  apply (proj1 (update_route_never_answers_404 DB selectFull selectById
                  deleteById insertCliente updateCliente)
           (mkRequest "7" anaSilva) oneRowDB (VNum 0) oneRowDB);
    reflexivity.
Defined.

Lemma existsb_after_removal {A} (p : A -> bool) (l : list A) :
  existsb p (filter (fun x => negb (p x)) l) = false.
Proof.
  induction l as [|x l IH]; [reflexivity|].
  simpl. destruct (p x) eqn:E; simpl; [exact IH | now rewrite E].
Qed.

Lemma find_after_removal {A} (p : A -> bool) (l : list A) :
  find p (filter (fun x => negb (p x)) l) = None.
Proof.
  induction l as [|x l IH]; [reflexivity|].
  simpl. destruct (p x) eqn:E; simpl; [exact IH | now rewrite E].
Qed.

Lemma filter_twice {A} (q : A -> bool) (l : list A) :
  filter q (filter q l) = filter q l.
Proof.
  induction l as [|x l IH]; [reflexivity|].
  simpl. destruct (q x) eqn:E; simpl; [rewrite E; now f_equal | exact IH].
Qed.

(** On the modelled table, whatever it holds: deleting a stored record is
    answered 200, and deleting the same id again 404. *)
Lemma stored_record_deleted_twice (req : request) (db : DB) :
  online db = true ->
  existsb (matches (params_id req)) (rows db) = true ->
  exists db1,
    serve Delete req db
    = (Normal (mkResponse 200 (msg "Cliente deletado com sucesso")), db1)
    /\ serve Delete req db1
       = (Normal (mkResponse 404 (err "Cliente não encontrado")), db1)
    /\ find (matches (params_id req)) (rows db1) = None.
Proof.
  intros Hon Hin. eexists. split; [|split].
  - unfold serve, handle, delete_cliente, try_catch, bind, deleteById, connected.
    rewrite Hon, Hin. reflexivity.
  - unfold serve, handle, delete_cliente, try_catch, bind, deleteById, connected.
    cbn [online rows nextId]. rewrite existsb_after_removal, filter_twice.
    reflexivity.
  - cbn [rows]. apply find_after_removal.
Qed.

End StoreFacts.

(** * Further properties of the client application *)

(** ** More on strings *)

Section MoreStringFacts.
Local Open Scope list_scope.
Local Open Scope N_scope.

Lemma trimStart_fixed s :
  trimStart s = s <-> s = [] \/ exists c r, s = c :: r /\ isWhiteSpace c = false.
Proof.
  split.
  - destruct s as [|c r]; [now left|]. intros H. right. exists c, r.
    split; [reflexivity|]. simpl in H.
    destruct (isWhiteSpace c) eqn:W; [|reflexivity]. exfalso.
    assert (L : forall t, (List.length (trimStart t) <= List.length t)%nat).
    { induction t as [|x t IH]; simpl; [lia|].
      destruct (isWhiteSpace x); simpl; lia. }
    specialize (L r). rewrite H in L. simpl in L. lia.
  - intros [-> | (c & r & -> & W)]; [reflexivity|]. simpl. now rewrite W.
Qed.

Lemma trimStart_snoc a h :
  isWhiteSpace h = false -> trimStart (a ++ [h]) = trimStart a ++ [h].
Proof.
  intros W. induction a as [|x a IH]; simpl; [now rewrite W|].
  destruct (isWhiteSpace x); [exact IH | reflexivity].
Qed.

Lemma trimEnd_idem s : trimEnd (trimEnd s) = trimEnd s.
Proof. unfold trimEnd. now rewrite rev_involutive, trimStart_idem. Qed.

(** Trimming the end keeps a text free of white space at its start. *)
Lemma trimStart_trimEnd t : trimStart t = t -> trimStart (trimEnd t) = trimEnd t.
Proof.
  intros H. apply trimStart_fixed in H. destruct H as [-> | (h & r & -> & W)];
    [reflexivity|].
  unfold trimEnd. simpl rev. rewrite (trimStart_snoc _ _ W), rev_app_distr.
  simpl. now rewrite W.
Qed.

Lemma trim_idem s : trim (trim s) = trim s.
Proof.
  unfold trim.
  rewrite (trimStart_trimEnd (trimStart s)) by apply trimStart_idem.
  apply trimEnd_idem.
Qed.

Lemma trimStart_keeps (P : N -> bool) s :
  forallb P s = true -> forallb P (trimStart s) = true.
Proof.
  induction s as [|c s IH]; simpl; [trivial|].
  rewrite andb_true_iff. intros [Hc Hs].
  destruct (isWhiteSpace c); [now apply IH | simpl; now rewrite Hc, Hs].
Qed.

Lemma forallb_rev (P : N -> bool) s : forallb P (rev s) = forallb P s.
Proof.
  induction s as [|c s IH]; [reflexivity|].
  simpl. rewrite forallb_app, IH. simpl. rewrite andb_true_r. apply andb_comm.
Qed.

Lemma trim_keeps (P : N -> bool) s :
  forallb P s = true -> forallb P (trim s) = true.
Proof.
  intros H. unfold trim, trimEnd. rewrite forallb_rev.
  apply trimStart_keeps. rewrite forallb_rev. now apply trimStart_keeps.
Qed.

Lemma trimStart_length s : (List.length (trimStart s) <= List.length s)%nat.
Proof.
  induction s as [|c s IH]; simpl; [lia|].
  destruct (isWhiteSpace c); simpl; lia.
Qed.

Lemma trim_length s : (List.length (trim s) <= List.length s)%nat.
Proof.
  unfold trim, trimEnd. rewrite length_rev.
  etransitivity; [apply trimStart_length|]. rewrite length_rev.
  apply trimStart_length.
Qed.

Lemma upperAscii_not_lower c : isLowerAZ (upperAscii c) = false.
Proof.
  unfold upperAscii. destruct (isLowerAZ c) eqn:L; [|exact L].
  unfold isLowerAZ in *. apply between_spec in L.
  destruct (between 97 122 (c - 32)) eqn:E; [|reflexivity].
  apply between_spec in E. lia.
Qed.

Lemma upperAscii_idem c : upperAscii (upperAscii c) = upperAscii c.
Proof. unfold upperAscii at 1. now rewrite upperAscii_not_lower. Qed.

Lemma upperAscii_ascii c : isAscii c = true -> isAscii (upperAscii c) = true.
Proof.
  unfold upperAscii, isAscii. rewrite !N.ltb_lt.
  destruct (isLowerAZ c); lia.
Qed.

Lemma digit_facts c :
  isDigit c = true ->
  isWhiteSpace c = false /\ (c =? 45) = false /\ (c =? 43) = false
  /\ (c =? 120) = false /\ (c =? 88) = false
  /\ radixDigit 10 c = Some (Z.of_N (c - 48)).
Proof.
  unfold isDigit. intros H. pose proof H as B. apply between_spec in B.
  repeat split; try (apply N.eqb_neq; lia).
  - destruct (isWhiteSpace c) eqn:E; [exfalso | reflexivity].
    unfold isWhiteSpace in E.
    rewrite !orb_true_iff, !between_spec, !N.eqb_eq in E. lia.
  - unfold radixDigit, digitValue. rewrite H.
    destruct (Z.ltb_spec (Z.of_N (c - 48)) 10); [reflexivity | lia].
Qed.

(** On a text of digits [parseInt] reads every digit. *)
Lemma digitPrefix_digits s :
  forallb isDigit s = true ->
  digitPrefix 10 s = map (fun c => Z.of_N (c - 48)) s.
Proof.
  induction s as [|c s IH]; simpl; [reflexivity|].
  rewrite andb_true_iff. intros [Hc Hs].
  destruct (digit_facts c Hc) as (_ & _ & _ & _ & _ & ->). now rewrite IH.
Qed.

Lemma parseInt_digits s :
  s <> [] -> forallb isDigit s = true ->
  parseInt s = Some (mathInt 10 (digitPrefix 10 s)).
Proof.
  intros Hne Hd.
  destruct s as [|c0 r]; [contradiction|].
  simpl in Hd. apply andb_true_iff in Hd. destruct Hd as [H0 Hr].
  destruct (digit_facts c0 H0) as (W & M & P & _ & _ & R).
  unfold parseInt. cbn [trimStart]. rewrite W, M, P. cbv beta iota zeta.
  cbn [orb]. cbv beta iota zeta.
  destruct r as [|c1 rest].
  - cbn [digitPrefix]. rewrite R. f_equal. apply Z.mul_1_l.
  - simpl in Hr. apply andb_true_iff in Hr. destruct Hr as [H1 _].
    destruct (digit_facts c1 H1) as (_ & _ & _ & X & Y & _).
    rewrite X, Y. cbn [orb]. rewrite andb_false_r.
    cbn [digitPrefix]. rewrite R. f_equal. apply Z.mul_1_l.
Qed.

Lemma parseInt_minus_digits s :
  s <> [] -> forallb isDigit s = true ->
  parseInt (45 :: s) = Some (- mathInt 10 (digitPrefix 10 s))%Z.
Proof.
  intros Hne Hd.
  destruct s as [|c0 r]; [contradiction|].
  simpl in Hd. apply andb_true_iff in Hd. destruct Hd as [H0 Hr].
  destruct (digit_facts c0 H0) as (W & M & P & _ & _ & R).
  unfold parseInt. cbv zeta.
  change (trimStart (45 :: c0 :: r)) with (45 :: c0 :: r). cbv beta iota.
  change (45 =? 45) with true. change (45 =? 43) with false.
  cbn [orb]. cbv beta iota.
  destruct r as [|c1 rest].
  - cbn [digitPrefix]. rewrite R. f_equal; lia.
  - simpl in Hr. apply andb_true_iff in Hr. destruct Hr as [H1 _].
    destruct (digit_facts c1 H1) as (_ & _ & _ & X & Y & _).
    rewrite X, Y. cbn [orb]. rewrite andb_false_r.
    cbn [digitPrefix]. rewrite R. f_equal; lia.
Qed.
End MoreStringFacts.

(** ** Decimal text of a number *)

Section DecimalFacts.
Local Open Scope list_scope.
Local Open Scope Z_scope.

Local Abbreviation value := (fun c : N => Z.of_N (c - 48)).
Local Abbreviation step := (fun acc d : Z => acc * 10 + d).

Lemma uint_text_digits u :
  forallb isDigit (lit (NilEmpty.string_of_uint u)) = true.
Proof. induction u; simpl; trivial. Qed.

Lemma uint_text_nonempty u :
  u <> Decimal.Nil -> lit (NilEmpty.string_of_uint u) <> [].
Proof.
  intros H. destruct u; [contradiction | unfold lit; simpl; discriminate ..].
Qed.

Lemma uint_text_acc u :
  forall acc,
    fold_left step (map value (lit (NilEmpty.string_of_uint u))) (Zpos acc)
    = Zpos (Pos.of_uint_acc u acc).
Proof.
  induction u; intros acc; [reflexivity | ..];
    cbn [NilEmpty.string_of_uint Pos.of_uint_acc];
    rewrite <- IHu; unfold lit; cbn [list_ascii_of_string map fold_left];
    f_equal; cbv beta;
    match goal with
    | |- context [Z.of_N ?x] =>
        let v := eval vm_compute in (Z.of_N x) in change (Z.of_N x) with v
    end; lia.
Qed.

Lemma uint_text_value u :
  mathInt 10 (map value (lit (NilEmpty.string_of_uint u)))
  = Z.of_N (Pos.of_uint u).
Proof.
  unfold mathInt.
  induction u; [reflexivity | exact IHu | ..];
    cbn [NilEmpty.string_of_uint Pos.of_uint Z.of_N];
    rewrite <- uint_text_acc; reflexivity.
Qed.

Lemma parseInt_uint u :
  u <> Decimal.Nil ->
  parseInt (lit (NilEmpty.string_of_uint u)) = Some (Z.of_N (Pos.of_uint u)).
Proof.
  intros H. rewrite parseInt_digits
    by (apply uint_text_nonempty, H || apply uint_text_digits).
  rewrite digitPrefix_digits by apply uint_text_digits.
  f_equal. apply uint_text_value.
Qed.

(** The decimal text of an integer reads back as that integer. *)
Lemma parseInt_numberToString n : parseInt (numberToString n) = Some n.
Proof.
  unfold numberToString, showZ. destruct n as [|p|p]; [reflexivity | |].
  - cbn [Z.to_int NilZero.string_of_int].
    pose proof (Unsigned.to_uint_nonnil p) as Hn.
    replace (NilZero.string_of_uint (Pos.to_uint p))
      with (NilEmpty.string_of_uint (Pos.to_uint p))
      by (destruct (Pos.to_uint p); [contradiction | reflexivity ..]).
    rewrite parseInt_uint, Unsigned.of_to by exact Hn. reflexivity.
  - cbn [Z.to_int NilZero.string_of_int].
    pose proof (Unsigned.to_uint_nonnil p) as Hn.
    replace (NilZero.string_of_uint (Pos.to_uint p))
      with (NilEmpty.string_of_uint (Pos.to_uint p))
      by (destruct (Pos.to_uint p); [contradiction | reflexivity ..]).
    change (lit (String "-" (NilEmpty.string_of_uint (Pos.to_uint p))))
      with (45%N :: lit (NilEmpty.string_of_uint (Pos.to_uint p))).
    rewrite parseInt_minus_digits
      by (apply uint_text_nonempty, Hn || apply uint_text_digits).
    rewrite digitPrefix_digits by apply uint_text_digits.
    rewrite uint_text_value, Unsigned.of_to. reflexivity.
Qed.
End DecimalFacts.

(** ** Effects of the handlers *)

Section HandlerEffects.
Local Open Scope list_scope.
Local Open Scope string_scope.

Lemma alerts_app t1 t2 : (alerts (t1 ++ t2) = alerts t1 ++ alerts t2)%list.
Proof. unfold alerts. apply flat_map_app. Qed.


(** Everything [fetchClientes] does outside the list itself. *)
Lemma fetchClientes_effect s :
  exists u' evs,
    fetchClientes s
    = (Normal tt, mkSys u' (trace s ++ evs) (fun n => net s (S n)))
    /\ fetches evs = [listRequest]
    /\ (List.length (alerts evs) <= 1)%nat
    /\ formData u' = formData (ui s)
    /\ editingCliente u' = editingCliente (ui s)
    /\ modalVisible u' = modalVisible (ui s)
    /\ deletingCliente u' = deletingCliente (ui s)
    /\ deleteModalVisible u' = deleteModalVisible (ui s)
    /\ loading u' = false.
Proof.
  unfold fetchClientes, setLoading, setClientes. unfold_js. proj_simpl.
  destruct (net s 0%nat) as [r|e].
  - destruct (ok r); cbn [negb].
    + destruct (json r) as [d|e].
      * do 2 eexists. split; [norm_trace; reflexivity |].
        cbn. repeat split; lia.
      * destruct (isError e); [destruct (String.eqb (name e) "TimeoutError");
          [| destruct (includes "Network request failed" (message e))] |];
          do 2 eexists; (split; [norm_trace; reflexivity |]);
          cbn; repeat split; lia.
    + cbn [isError name message].
      change (String.eqb "Error" "TimeoutError") with false. cbv iota.
      destruct (includes _ _);
        do 2 eexists; (split; [norm_trace; reflexivity |]);
        cbn; repeat split; lia.
  - destruct (isError e); [destruct (String.eqb (name e) "TimeoutError");
      [| destruct (includes "Network request failed" (message e))] |];
      do 2 eexists; (split; [norm_trace; reflexivity |]);
      cbn; repeat split; lia.
Qed.

(** A text without the letter N holds no "Network request failed". *)
Lemma includes_skips a b :
  forallb (fun c => negb (Ascii.eqb c "N")) (list_ascii_of_string a) = true ->
  includes "Network request failed" (a ++ b)
  = includes "Network request failed" b.
Proof.
  induction a as [|c a IH]; [reflexivity|].
  cbn [list_ascii_of_string forallb]. rewrite andb_true_iff. intros [Hc Ha].
  cbn [append includes String.prefix].
  destruct (ascii_dec "N" c) as [<-|_]; [discriminate Hc|].
  now apply IH.
Qed.

Lemma showZ_has_no_N n :
  forallb (fun c => negb (Ascii.eqb c "N")) (list_ascii_of_string (showZ n)) = true.
Proof.
  assert (U : forall u,
             forallb (fun c => negb (Ascii.eqb c "N"))
               (list_ascii_of_string (NilEmpty.string_of_uint u)) = true)
    by (induction u; simpl; trivial).
  assert (V : forall u,
             forallb (fun c => negb (Ascii.eqb c "N"))
               (list_ascii_of_string (NilZero.string_of_uint u)) = true)
    by (intros u; destruct u; try apply U; reflexivity).
  unfold showZ. destruct (Z.to_int n) as [u|u]; cbn [NilZero.string_of_int].
  - apply V.
  - cbn [list_ascii_of_string forallb]. now rewrite V.
Qed.

Lemma includes_absent a :
  forallb (fun c => negb (Ascii.eqb c "N")) (list_ascii_of_string a) = true ->
  includes "Network request failed" a = false.
Proof.
  induction a as [|c a IH]; [reflexivity|].
  cbn [list_ascii_of_string forallb]. rewrite andb_true_iff. intros [Hc Ha].
  cbn [includes String.prefix].
  destruct (ascii_dec "N" c) as [<-|_]; [discriminate Hc|].
  now apply IH.
Qed.

Lemma http_error_is_not_unreachable n :
  includes "Network request failed" ("HTTP error! status: " ++ showZ n) = false.
Proof.
  rewrite includes_skips by reflexivity.
  apply includes_absent, showZ_has_no_N.
Qed.
End HandlerEffects.

(** ** Validation and what is submitted *)

Section SubmissionFacts.
Local Open Scope list_scope.
Local Open Scope string_scope.

(** X1. [validateForm] accepts a form exactly when the name is not blank,
    [parseInt] of the age is an integer from 0 to 150, and the UF field is
    not blank and has exactly two characters; the separate test for a blank
    age adds nothing to the [parseInt] test. *)
Theorem validateForm_accepts_exactly :
  forall (f : FormData) (s : Sys),
    result (validateForm f) s = Normal true
    <-> isEmpty (trim (Nome f)) = false
        /\ (exists n, parseInt (Idade f) = Some n /\ (0 <= n <= 150)%Z)
        /\ isEmpty (trim (UF f)) = false
        /\ List.length (UF f) = 2%nat.
Proof.
  intros f s. split.
  - intros H. apply validateForm_accepts in H.
    destruct H as (_ & Hn & _ & Hi & Hu & Hl).
    apply idadeInvalida_spec in Hi. tauto.
  - intros (Hn & Hi & Hu & Hl). unfold result.
    rewrite validateForm_passes; try assumption; [reflexivity | |].
    + destruct (isEmpty (trim (Idade f))) eqn:E; [|reflexivity].
      apply parseInt_blank in E. destruct Hi as (n & Hi & _).
      rewrite E in Hi. discriminate Hi.
    + now apply idadeInvalida_spec.
Qed.

Lemma validateForm_accepts_exactly_witness :
  result (validateForm formAna) (start (creating formAna) []) = Normal true.
Proof.
  apply (proj2 (validateForm_accepts_exactly formAna (start (creating formAna) []))).
  repeat split; try reflexivity. exists 30%Z. split; [reflexivity | lia].
Defined.

(** X2. The body sent for an accepted form is well formed: the age is an
    integer from 0 to 150, never NaN; the name is not empty and has no white
    space left at either end; and when the UF field is ASCII the UF sent has
    one or two characters, none of them a lowercase letter. *)
Theorem accepted_payload_is_well_formed :
  forall (up : jsstring -> jsstring) (f : FormData) (s : Sys),
    result (validateForm f) s = Normal true ->
    (exists n, pIdade (clientePayload up f) = Some n /\ (0 <= n <= 150)%Z)
    /\ pNome (clientePayload up f) <> []
    /\ trim (pNome (clientePayload up f)) = pNome (clientePayload up f)
    /\ (forallb isAscii (UF f) = true ->
        (1 <= List.length (pUF (clientePayload up f)) <= 2)%nat
        /\ forallb (fun c => negb (isLowerAZ c)) (pUF (clientePayload up f)) = true).
Proof.
  intros up f s H. apply validateForm_accepts in H.
  destruct H as (_ & Hn & _ & Hi & Hu & Hl). cbn [clientePayload pIdade pNome pUF].
  repeat split.
  - now apply idadeInvalida_spec.
  - intros E. rewrite E in Hn. discriminate Hn.
  - apply trim_idem.
  - rewrite toUpperCase_ascii by now apply trim_keeps.
    rewrite length_map. destruct (trim (UF f)); [discriminate Hu | simpl; lia].
  - rewrite toUpperCase_ascii by now apply trim_keeps.
    rewrite length_map. pose proof (trim_length (UF f)). lia.
  - rewrite toUpperCase_ascii by now apply trim_keeps.
    apply forallb_forall. intros c Hc. apply in_map_iff in Hc.
    destruct Hc as (x & <- & _). now rewrite upperAscii_not_lower.
Qed.

Lemma accepted_payload_witness :
  (exists n, pIdade (clientePayload sameUnits formPaddedUF) = Some n
             /\ (0 <= n <= 150)%Z)
  /\ pNome (clientePayload sameUnits formPaddedUF) <> []
  /\ trim (pNome (clientePayload sameUnits formPaddedUF))
     = pNome (clientePayload sameUnits formPaddedUF)
  /\ (forallb isAscii (UF formPaddedUF) = true ->
      (1 <= List.length (pUF (clientePayload sameUnits formPaddedUF)) <= 2)%nat
      /\ forallb (fun c => negb (isLowerAZ c))
           (pUF (clientePayload sameUnits formPaddedUF)) = true).
Proof.
  apply (accepted_payload_is_well_formed sameUnits formPaddedUF
           (start (creating formPaddedUF) [])).
  reflexivity.
Defined.
End SubmissionFacts.

(** ** The list fetch *)

Section FetchFacts.
Local Open Scope string_scope.
Local Open Scope list_scope.

Ltac enter_fetch :=
  unfold run, fetchClientes, setLoading, setClientes; unfold_js; proj_simpl.

(** X3. [fetchClientes] never throws and sends exactly one request, the
    list request, however that request settles; it shows at most one alert,
    ends with [loading] off, and leaves the form, the record being edited,
    the record being deleted and both modals as they were. *)
Theorem fetchClientes_sends_one_request :
  forall s : Sys,
    result fetchClientes s = Normal tt
    /\ (exists evs,
           trace (run fetchClientes s) = trace s ++ evs
           /\ fetches evs = [listRequest]
           /\ (List.length (alerts evs) <= 1)%nat)
    /\ net (run fetchClientes s) = (fun n => net s (S n))
    /\ loading (ui (run fetchClientes s)) = false
    /\ formData (ui (run fetchClientes s)) = formData (ui s)
    /\ editingCliente (ui (run fetchClientes s)) = editingCliente (ui s)
    /\ modalVisible (ui (run fetchClientes s)) = modalVisible (ui s)
    /\ deletingCliente (ui (run fetchClientes s)) = deletingCliente (ui s)
    /\ deleteModalVisible (ui (run fetchClientes s)) = deleteModalVisible (ui s).
Proof.
  intros s.
  destruct (fetchClientes_effect s)
    as (u & evs & F & Hf & Ha & F1 & F2 & F3 & F4 & F5 & F6).
  unfold result, run. rewrite F. proj_simpl.
  repeat match goal with |- _ /\ _ => split end; try assumption; try reflexivity.
  exists evs. auto.
Qed.

(** X4. What [fetchClientes] does to the list: a 2xx response whose body
    is an array replaces the list by it and shows no alert; a 2xx response
    whose body parses to something else empties the list; a response that
    is not 2xx, a body that does not parse and a rejected request all leave
    the list as it was. *)
Theorem fetchClientes_list_update :
  forall s : Sys,
    (forall r items,
        net s 0%nat = Normal r -> ok r = true -> json r = Normal (DArray items) ->
        clientes (ui (run fetchClientes s)) = items
        /\ trace (run fetchClientes s)
           = trace s ++ [ConsoleLog "Tentando conectar em:"; Fetch listRequest;
                         ConsoleLog "Dados recebidos:"])
    /\ (forall r,
           net s 0%nat = Normal r -> ok r = true -> json r = Normal DOther ->
           clientes (ui (run fetchClientes s)) = [])
    /\ (forall r,
           net s 0%nat = Normal r -> ok r = false ->
           clientes (ui (run fetchClientes s)) = clientes (ui s))
    /\ (forall r e,
           net s 0%nat = Normal r -> ok r = true -> json r = Throw e ->
           clientes (ui (run fetchClientes s)) = clientes (ui s))
    /\ (forall e,
           net s 0%nat = Throw e ->
           clientes (ui (run fetchClientes s)) = clientes (ui s)).
Proof.
  intros s. repeat match goal with |- _ /\ _ => split end.
  - intros r items Hr Hok Hj. enter_fetch. rewrite Hr, Hok. cbn [negb].
    rewrite Hj. split; [reflexivity | norm_trace; reflexivity].
  - intros r Hr Hok Hj. enter_fetch. rewrite Hr, Hok. cbn [negb].
    rewrite Hj. reflexivity.
  - intros r Hr Hok. enter_fetch. rewrite Hr, Hok. cbn [negb isError name message].
    change (String.eqb "Error" "TimeoutError") with false. cbv iota.
    destruct (includes _ _); reflexivity.
  - intros r e Hr Hok Hj. enter_fetch. rewrite Hr, Hok. cbn [negb].
    rewrite Hj.
    destruct (isError e); [destruct (String.eqb (name e) "TimeoutError");
      [| destruct (includes "Network request failed" (message e))] |];
      reflexivity.
  - intros e He. enter_fetch. rewrite He.
    destruct (isError e); [destruct (String.eqb (name e) "TimeoutError");
      [| destruct (includes "Network request failed" (message e))] |];
      reflexivity.
Qed.

Lemma fetchClientes_list_update_witness :
  clientes (ui (run fetchClientes (start (creating emptyForm) [Normal listed])))
  = [ana]
  /\ clientes (ui (run fetchClientes (start (creating emptyForm) [Normal created])))
     = []
  /\ clientes (ui (run fetchClientes (start (creating emptyForm) [Normal serverError])))
     = [ana]
  /\ clientes (ui (run fetchClientes (start (creating emptyForm) [Throw networkDown])))
     = [ana].
Proof.
  repeat match goal with |- _ /\ _ => split end.
  - destruct (fetchClientes_list_update (start (creating emptyForm) [Normal listed]))
      as (H & _).
    apply (H listed [ana]); reflexivity.
  - destruct (fetchClientes_list_update (start (creating emptyForm) [Normal created]))
      as (_ & H & _).
    apply (H created); reflexivity.
  - destruct (fetchClientes_list_update
                (start (creating emptyForm) [Normal serverError]))
      as (_ & _ & H & _).
    apply (H serverError); reflexivity.
  - destruct (fetchClientes_list_update
                (start (creating emptyForm) [Throw networkDown]))
      as (_ & _ & _ & _ & H).
    apply (H networkDown); reflexivity.
Defined.

(** X5. The alert of a failed list fetch. A response that is not 2xx shows
    "Falha na conexão: HTTP error! status: " followed by the status, never
    the unreachable-server text, and its body is not read. A rejection whose
    message holds "Network request failed" shows the unreachable-server
    alert; a rejection that is not an [Error] is logged and shows no alert
    at all. *)
Theorem fetchClientes_failure_alerts :
  forall s : Sys,
    (forall r,
        net s 0%nat = Normal r -> ok r = false ->
        trace (run fetchClientes s)
        = trace s ++ [ConsoleLog "Tentando conectar em:"; Fetch listRequest;
                      ConsoleError "Erro detalhado:";
                      Alert "Erro" ("Falha na conexão: HTTP error! status: "
                                    ++ showZ (status r))%string])
    /\ (forall e,
           net s 0%nat = Throw e -> isError e = true ->
           name e <> "TimeoutError" ->
           includes "Network request failed" (message e) = true ->
           trace (run fetchClientes s)
           = trace s ++ [ConsoleLog "Tentando conectar em:"; Fetch listRequest;
                         ConsoleError "Erro detalhado:";
                         Alert "Erro de Conexão" unreachableText])
    /\ (forall e,
           net s 0%nat = Throw e -> isError e = false ->
           trace (run fetchClientes s)
           = trace s ++ [ConsoleLog "Tentando conectar em:"; Fetch listRequest;
                         ConsoleError "Erro detalhado:"]).
Proof.
  intros s. repeat match goal with |- _ /\ _ => split end.
  - intros r Hr Hok. enter_fetch. rewrite Hr, Hok. cbn [negb isError name message].
    change (String.eqb "Error" "TimeoutError") with false. cbv iota.
    rewrite http_error_is_not_unreachable. norm_trace. reflexivity.
  - intros e He Hi Hn Hm. apply String.eqb_neq in Hn.
    enter_fetch. rewrite He, Hi, Hn, Hm. norm_trace. reflexivity.
  - intros e He Hi. enter_fetch. rewrite He, Hi. norm_trace. reflexivity.
Qed.

Lemma fetchClientes_failure_alerts_witness :
  trace (run fetchClientes (start (creating emptyForm) [Normal serverError]))
  = [ConsoleLog "Tentando conectar em:"; Fetch listRequest;
     ConsoleError "Erro detalhado:";
     Alert "Erro" "Falha na conexão: HTTP error! status: 500"]
  /\ trace (run fetchClientes (start (creating emptyForm) [Throw networkDown]))
     = [ConsoleLog "Tentando conectar em:"; Fetch listRequest;
        ConsoleError "Erro detalhado:"; Alert "Erro de Conexão" unreachableText]
  /\ trace (run fetchClientes
              (start (creating emptyForm) [Throw (mkError false "" "")]))
     = [ConsoleLog "Tentando conectar em:"; Fetch listRequest;
        ConsoleError "Erro detalhado:"].
Proof.
  repeat match goal with |- _ /\ _ => split end.
  - destruct (fetchClientes_failure_alerts
                (start (creating emptyForm) [Normal serverError])) as (H & _).
    apply (H serverError); reflexivity.
  - destruct (fetchClientes_failure_alerts
                (start (creating emptyForm) [Throw networkDown])) as (_ & H & _).
    apply (H networkDown); [reflexivity | reflexivity | discriminate | reflexivity].
  - destruct (fetchClientes_failure_alerts
                (start (creating emptyForm) [Throw (mkError false "" "")]))
      as (_ & _ & H).
    apply (H (mkError false "" "")); reflexivity.
Defined.
End FetchFacts.

(** ** The three mutations *)

Section MutationFacts.
Local Open Scope string_scope.
Local Open Scope list_scope.

Ltac refetch_effect :=
  match goal with
  | |- context [fetchClientes ?s1] =>
      let u := fresh "u" in
      let evs := fresh "evs" in
      let F := fresh "F" in
      let Hf := fresh "Hf" in
      destruct (fetchClientes_effect s1)
        as (u & evs & F & Hf & _ & ? & ? & ? & ? & ? & _);
      rewrite F; proj_simpl
  end.

Ltac sent_once E h req s prep :=
  let A := fresh "A" in
  assert (A : exists u evs n,
             h s = (Normal tt, mkSys u (trace s ++ evs) n)
             /\ fetches evs = requestsOf req s);
  [ unfold requestsOf; prep;
    unfold bind at 1; rewrite E; cbn [negb]; unfold_handlers; proj_simpl;
    destruct (net s 0%nat) as [r|e];
    [ destruct (ok r);
      [ refetch_effect; do 3 eexists;
        split; [norm_trace; reflexivity | cbn; now f_equal]
      | destruct (text r); do 3 eexists;
        (split; [norm_trace; reflexivity | reflexivity]) ]
    | do 3 eexists; split; [norm_trace; reflexivity | reflexivity] ]
  | destruct A as (u & evs & n & A & B); unfold result, run; rewrite A;
    split; [reflexivity | exists evs; split; [reflexivity | exact B]] ].

(** X6. No mutation is retried. A validated create or update, and a
    confirmed delete, send their own request exactly once, followed by one
    list request when and only when the answer is 2xx; on every other
    outcome nothing more is sent. All three end normally. *)
Theorem mutations_send_their_request_once :
  forall (up : jsstring -> jsstring) (snap : State) (s : Sys),
    (result (validateForm (formData snap)) s = Normal true ->
       result (createCliente up snap) s = Normal tt
       /\ exists evs,
            trace (run (createCliente up snap) s) = trace s ++ evs
            /\ fetches evs = requestsOf (createRequest up (formData snap)) s)
    /\ (forall c,
           editingCliente snap = Some c ->
           result (validateForm (formData snap)) s = Normal true ->
           result (updateCliente up snap) s = Normal tt
           /\ exists evs,
                trace (run (updateCliente up snap) s) = trace s ++ evs
                /\ fetches evs = requestsOf (updateRequest up c (formData snap)) s)
    /\ (forall c,
           deletingCliente snap = Some c ->
           result (deleteCliente snap) s = Normal tt
           /\ exists evs,
                trace (run (deleteCliente snap) s) = trace s ++ evs
                /\ fetches evs = requestsOf (deleteRequest c) s).
Proof.
  intros up snap s. repeat match goal with |- _ /\ _ => split end.
  - intros H. apply validateForm_accepts in H. destruct H as (E & _).
    sent_once E (createCliente up snap) (createRequest up (formData snap)) s
      ltac:(unfold createCliente).
  - intros c Hc H. apply validateForm_accepts in H. destruct H as (E & _).
    sent_once E (updateCliente up snap) (updateRequest up c (formData snap)) s
      ltac:(unfold updateCliente; rewrite Hc).
  - intros c Hc. unfold run, result, requestsOf, deleteCliente. rewrite Hc.
    unfold_handlers. proj_simpl.
    destruct (net s 0%nat) as [r|e].
    + destruct (ok r).
      * refetch_effect. split; [reflexivity|]. eexists.
        split; [norm_trace; reflexivity | cbn; now f_equal].
      * destruct (text r) as [t|e];
          [| destruct (String.eqb (name e) "AbortError")];
          (split; [reflexivity|]); eexists;
          (split; [norm_trace; reflexivity | reflexivity]).
    + destruct (String.eqb (name e) "AbortError");
        (split; [reflexivity|]); eexists;
        (split; [norm_trace; reflexivity | reflexivity]).
Qed.
Lemma mutations_send_once_witness :
  (result (createCliente sameUnits (creating formAna))
     (start (creating formAna) [Normal created; Normal listed]) = Normal tt
   /\ exists evs,
        trace (run (createCliente sameUnits (creating formAna))
                 (start (creating formAna) [Normal created; Normal listed]))
        = trace (start (creating formAna) [Normal created; Normal listed]) ++ evs
        /\ fetches evs = [createRequest sameUnits formAna; listRequest])
  /\ (result (deleteCliente confirming) (start confirming [Normal serverError])
      = Normal tt
      /\ exists evs,
           trace (run (deleteCliente confirming)
                    (start confirming [Normal serverError]))
           = trace (start confirming [Normal serverError]) ++ evs
           /\ fetches evs = [deleteRequest ana]).
Proof.
  split.
  - apply (proj1 (mutations_send_their_request_once sameUnits (creating formAna)
                    (start (creating formAna) [Normal created; Normal listed]))).
    reflexivity.
  - apply (proj2 (proj2 (mutations_send_their_request_once sameUnits confirming
                           (start confirming [Normal serverError]))) ana).
    reflexivity.
Defined.







End MutationFacts.

(** ** The screen as a whole *)

Section ScreenFacts.
Import Screen.
Local Open Scope string_scope.
Local Open Scope list_scope.

Lemma state_eta u :
  mkState (clientes u) (loading u) (modalVisible u) (deleteModalVisible u)
    (editingCliente u) (deletingCliente u) (formData u) = u.
Proof. now destruct u. Qed.



(** X9. Opening a modal and cancelling it restores the screen exactly:
    asking to delete a record and cancelling, and opening the edit form or
    the create form and cancelling, each lead back to the state before,
    when no modal was open and the form was empty. *)
Theorem cancelling_restores_the_screen :
  forall (s : Sys) (c : Cliente),
    (deletingCliente (ui s) = None -> deleteModalVisible (ui s) = false ->
       run closeDeleteModal (run (confirmDeleteCliente c) s) = s)
    /\ (editingCliente (ui s) = None -> modalVisible (ui s) = false ->
        formData (ui s) = emptyForm ->
          run resetForm (run (openEditModal c) s) = s
          /\ run resetForm (run openCreateModal s) = s).
Proof.
  intros s c. split.
  - intros H1 H2. unfold run.
    cbv [closeDeleteModal confirmDeleteCliente setDeletingCliente
         setDeleteModalVisible]. unfold_js. proj_simpl.
    rewrite <- H1, <- H2. now rewrite state_eta, sys_eta.
  - intros H1 H2 H3. unfold run.
    cbv [resetForm openEditModal openCreateModal setEditingCliente setFormData
         setModalVisible]. unfold_js. proj_simpl.
    rewrite <- H1, <- H2, <- H3. now rewrite state_eta, sys_eta.
Qed.

Lemma cancelling_restores_witness :
  run closeDeleteModal
    (run (confirmDeleteCliente ana) (mkSys initialState [] (scripted [] (Throw networkDown))))
  = mkSys initialState [] (scripted [] (Throw networkDown))
  /\ run resetForm
       (run (openEditModal ana) (mkSys initialState [] (scripted [] (Throw networkDown))))
     = mkSys initialState [] (scripted [] (Throw networkDown)).
Proof.
  destruct (cancelling_restores_the_screen
              (mkSys initialState [] (scripted [] (Throw networkDown))) ana)
    as (H1 & H2).
  split; [apply H1; reflexivity | apply H2; reflexivity].
Defined.
End ScreenFacts.

(** ** Editing and typing *)

Section EditingFacts.
Import Screen.
Local Open Scope string_scope.
Local Open Scope list_scope.

(** X10. The age text that the edit form shows for a stored integer age
    parses back to that age: [parseInt] undoes [toString] on every integer
    that a Number holds exactly. *)
Theorem age_text_reads_back :
  forall n : Z,
    (Z.abs n <= 9007199254740991)%Z ->
    parseInt (numberToString n) = Some n.
Proof. intros n _. apply parseInt_numberToString. Qed.

Lemma age_text_reads_back_witness :
  parseInt (numberToString (-37)) = Some (-37)%Z.
Proof. apply (age_text_reads_back (-37)). simpl. lia. Defined.

Lemma valid_update_starts_with_request up snap s c :
  editingCliente snap = Some c ->
  validateForm (formData snap) s = (Normal true, s) ->
  exists evs,
    trace (run (updateCliente up snap) s)
    = trace s ++ Fetch (updateRequest up c (formData snap)) :: evs.
Proof.
  intros Hc E. unfold run, updateCliente. rewrite Hc.
  unfold bind at 1. rewrite E. cbn [negb]. unfold_handlers. proj_simpl.
  destruct (net s 0%nat) as [r|e].
  - destruct (ok r).
    + match goal with
      | |- context [fetchClientes ?s1] =>
          destruct (fetchClientes_effect s1) as (u & evs & F & _); rewrite F
      end.
      eexists. norm_trace. reflexivity.
    + destruct (text r); eexists; norm_trace; reflexivity.
  - eexists. norm_trace. reflexivity.
Qed.

Lemma upper_letters_unchanged up a b :
  isUpperAZ a = true -> isUpperAZ b = true ->
  toUpperCase up (trim [a; b]) = [a; b].
Proof.
  intros Ha Hb.
  assert (La : isLetterAZ a = true) by (unfold isLetterAZ; now rewrite Ha).
  assert (Lb : isLetterAZ b = true) by (unfold isLetterAZ; now rewrite Hb).
  rewrite trim_two_letters by assumption.
  rewrite toUpperCase_ascii
    by (simpl; now rewrite (letter_ascii a La), (letter_ascii b Lb)).
  assert (U : forall c, isUpperAZ c = true -> upperAscii c = c).
  { intros c H. unfold upperAscii. destruct (isLowerAZ c) eqn:L; [|reflexivity].
    unfold isUpperAZ, isLowerAZ in *.
    apply between_spec in H. apply between_spec in L. lia. }
  simpl. now rewrite (U a Ha), (U b Hb).
Qed.

(** X11. Saving an edit without changing anything. For a record whose
    name is not blank, whose age is an integer from 0 to 150 and whose UF has
    two characters, not both blank: after [openEditModal] the form passes
    validation, and the save button sends first a PUT to the record's own
    URL carrying the trimmed name, the same age and the trimmed, upper-cased
    UF. When the stored name is already trimmed and the stored UF is two
    uppercase letters, the body is the record's own three fields. *)
Theorem saving_an_unchanged_edit_resubmits_the_record :
  forall (up : jsstring -> jsstring) (s : Sys) (c : Cliente),
    isEmpty (trim (cNome c)) = false ->
    (0 <= cIdade c <= 150)%Z ->
    isEmpty (trim (cUF c)) = false ->
    List.length (cUF c) = 2%nat ->
    result (validateForm (formData (ui (step up s (EditItem c)))))
      (step up s (EditItem c)) = Normal true
    /\ (exists evs,
           trace (step up (step up s (EditItem c)) Save)
           = trace s
             ++ Fetch (mkRequest (API_BASE_URL ++ "/clientes/" ++ showZ (id c))%string
                         "PUT" jsonHeaders
                         (Some (mkPayload (trim (cNome c)) (Some (cIdade c))
                                  (toUpperCase up (trim (cUF c)))))
                         (TimeoutSignal 10000))
             :: evs)
    /\ (trim (cNome c) = cNome c -> twoUpperLetters (cUF c) = true ->
        mkPayload (trim (cNome c)) (Some (cIdade c)) (toUpperCase up (trim (cUF c)))
        = mkPayload (cNome c) (Some (cIdade c)) (cUF c)).
Proof.
  intros up s c Hn Hi Hu Hl.
  assert (V : forall s0,
             validateForm (mkForm (cNome c) (numberToString (cIdade c)) (cUF c)) s0
             = (Normal true, s0)).
  { intros s0. apply validateForm_passes; cbn [Nome Idade UF]; try assumption.
    - destruct (isEmpty (trim (numberToString (cIdade c)))) eqn:B; [|reflexivity].
      apply parseInt_blank in B. rewrite parseInt_numberToString in B.
      discriminate B.
    - rewrite parseInt_numberToString. apply idadeInvalida_spec. eauto. }
  assert (S1 : step up s (EditItem c)
               = mkSys (mkState (clientes (ui s)) (loading (ui s)) true
                          (deleteModalVisible (ui s)) (Some c)
                          (deletingCliente (ui s))
                          (mkForm (cNome c) (numberToString (cIdade c)) (cUF c)))
                   (trace s) (net s)).
  { unfold step, run. cbn [perform].
    cbv [openEditModal setEditingCliente setFormData setModalVisible].
    unfold_js. proj_simpl. reflexivity. }
  rewrite S1. cbn [ui formData]. split; [|split].
  - unfold result. now rewrite V.
  - unfold step at 1. cbn [perform ui]. unfold onSave. cbn [editingCliente].
    destruct (valid_update_starts_with_request up
                (mkState (clientes (ui s)) (loading (ui s)) true
                   (deleteModalVisible (ui s)) (Some c) (deletingCliente (ui s))
                   (mkForm (cNome c) (numberToString (cIdade c)) (cUF c)))
                (mkSys (mkState (clientes (ui s)) (loading (ui s)) true
                          (deleteModalVisible (ui s)) (Some c)
                          (deletingCliente (ui s))
                          (mkForm (cNome c) (numberToString (cIdade c)) (cUF c)))
                   (trace s) (net s)) c eq_refl (V _)) as (evs & T).
    exists evs. rewrite T. cbn [trace formData].
    unfold updateRequest, clientePayload. cbn [Nome Idade UF].
    now rewrite parseInt_numberToString.
  - intros Ht Hw. rewrite Ht. f_equal.
    unfold twoUpperLetters in Hw. apply andb_true_iff in Hw. destruct Hw as [_ Hw].
    destruct (cUF c) as [|a [|b [|x r]]]; try discriminate Hl.
    simpl in Hw. rewrite !andb_true_iff in Hw. destruct Hw as (Ha & Hb & _).
    now apply upper_letters_unchanged.
Qed.

Lemma saving_an_unchanged_edit_witness :
  result (validateForm (formData (ui (step sameUnits (start (creating emptyForm) [])
                                        (EditItem ana)))))
    (step sameUnits (start (creating emptyForm) []) (EditItem ana)) = Normal true
  /\ mkPayload (trim (cNome ana)) (Some (cIdade ana))
       (toUpperCase sameUnits (trim (cUF ana)))
     = mkPayload (cNome ana) (Some (cIdade ana)) (cUF ana).
Proof.
  destruct (saving_an_unchanged_edit_resubmits_the_record sameUnits
              (start (creating emptyForm) []) ana)
    as (H1 & _ & H3); try reflexivity.
  - cbn. lia.
  - split; [exact H1 | apply H3; reflexivity].
Defined.
End EditingFacts.

Section TypingFacts.
Import Screen.
Local Open Scope string_scope.
Local Open Scope list_scope.

(** X12. Typing changes the form and nothing else, and no keystroke is
    lost: each update is applied to the form as it then is, so typing into
    two different fields gives the same form in either order, and typing
    twice into one field keeps the last text. *)
Theorem typing_updates_compose :
  forall (s : Sys) (f1 f2 : field) (v1 v2 : jsstring),
    run (handleInputChange f1 v1) s
    = mkSys (mkState (clientes (ui s)) (loading (ui s)) (modalVisible (ui s))
               (deleteModalVisible (ui s)) (editingCliente (ui s))
               (deletingCliente (ui s)) (withField (formData (ui s)) f1 v1))
        (trace s) (net s)
    /\ (f1 <> f2 ->
        run (handleInputChange f2 v2) (run (handleInputChange f1 v1) s)
        = run (handleInputChange f1 v1) (run (handleInputChange f2 v2) s))
    /\ run (handleInputChange f1 v2) (run (handleInputChange f1 v1) s)
       = run (handleInputChange f1 v2) s.
Proof.
  intros s f1 f2 v1 v2. unfold run, handleInputChange. unfold_js. proj_simpl.
  split; [reflexivity | split].
  - intros H. destruct f1, f2; try contradiction; reflexivity.
  - destruct f1; reflexivity.
Qed.

Lemma typing_updates_witness :
  run (handleInputChange FIdade (lit "30"))
    (run (handleInputChange FNome (lit "Ana")) (start (creating emptyForm) []))
  = run (handleInputChange FNome (lit "Ana"))
      (run (handleInputChange FIdade (lit "30")) (start (creating emptyForm) [])).
Proof.
  apply (proj1 (proj2 (typing_updates_compose (start (creating emptyForm) [])
                         FNome FIdade (lit "Ana") (lit "30")))).
  discriminate.
Defined.

(** X13. The UF input stores what is typed in upper case. For ASCII text
    the stored UF has as many characters as were typed and no lowercase
    letter, and upper-casing it again at submission changes nothing. *)
Theorem UF_input_stores_upper_case :
  forall (up : jsstring -> jsstring) (s : Sys) (text : jsstring),
    forallb isAscii text = true ->
    UF (formData (ui (run (onChangeUF up text) s))) = map upperAscii text
    /\ List.length (UF (formData (ui (run (onChangeUF up text) s))))
       = List.length text
    /\ forallb (fun c => negb (isLowerAZ c))
         (UF (formData (ui (run (onChangeUF up text) s)))) = true
    /\ toUpperCase up (UF (formData (ui (run (onChangeUF up text) s))))
       = UF (formData (ui (run (onChangeUF up text) s)))
    /\ Nome (formData (ui (run (onChangeUF up text) s))) = Nome (formData (ui s))
    /\ Idade (formData (ui (run (onChangeUF up text) s))) = Idade (formData (ui s)).
Proof.
  intros up s text H. unfold run, onChangeUF, handleInputChange.
  unfold_js. proj_simpl. cbn [withField UF Nome Idade].
  rewrite (toUpperCase_ascii up text H).
  repeat split.
  - apply length_map.
  - apply forallb_forall. intros c Hc. apply in_map_iff in Hc.
    destruct Hc as (x & <- & _). now rewrite upperAscii_not_lower.
  - rewrite toUpperCase_ascii.
    + rewrite map_map. apply map_ext. intros c. apply upperAscii_idem.
    + apply forallb_forall. intros c Hc. apply in_map_iff in Hc.
      destruct Hc as (x & <- & Hx). apply upperAscii_ascii.
      rewrite forallb_forall in H. now apply H.
Qed.

Lemma UF_input_witness :
  UF (formData (ui (run (onChangeUF sameUnits (lit "sp"))
                      (start (creating emptyForm) [])))) = lit "SP".
Proof.
  apply (UF_input_stores_upper_case sameUnits (start (creating emptyForm) [])
           (lit "sp")).
  reflexivity.
Defined.

Lemma showZ_inj a b : showZ a = showZ b -> a = b.
Proof.
  intros H. assert (E : Some a = Some b); [|now injection E].
  rewrite <- (parseInt_numberToString a), <- (parseInt_numberToString b).
  unfold numberToString. now rewrite H.
Qed.

Lemma append_inj_l (p a b : string) : (p ++ a = p ++ b)%string -> a = b.
Proof.
  induction p as [|c p IH]; cbn; [trivial|]. intros H. injection H as H. auto.
Qed.

(** X14. Requests for different records go to different URLs: the URL of a
    delete or an update request determines the id of its record, and the
    two carry different methods. *)
Theorem record_urls_identify_the_record :
  forall (up : jsstring -> jsstring) (c1 c2 : Cliente) (f1 f2 : FormData),
    (url (deleteRequest c1) = url (deleteRequest c2) -> id c1 = id c2)
    /\ (url (updateRequest up c1 f1) = url (updateRequest up c2 f2) -> id c1 = id c2)
    /\ url (deleteRequest c1) = url (updateRequest up c1 f1)
    /\ method (deleteRequest c1) <> method (updateRequest up c1 f1).
Proof.
  intros up c1 c2 f1 f2. cbn [url method deleteRequest updateRequest].
  repeat split.
  - intros H. apply append_inj_l, append_inj_l in H. now apply showZ_inj.
  - intros H. apply append_inj_l, append_inj_l in H. now apply showZ_inj.
  - discriminate.
Qed.

Lemma record_urls_witness :
  id (mkCliente 7 [] 0 []) = id (mkCliente 7 (lit "x") 1 (lit "SP")).
Proof.
  apply (proj1 (record_urls_identify_the_record sameUnits
                  (mkCliente 7 [] 0 []) (mkCliente 7 (lit "x") 1 (lit "SP"))
                  emptyForm emptyForm)).
  reflexivity.
Defined.
End TypingFacts.

(** * Further properties of the API service *)

Section MoreRouteFacts.
Import BackEnd.
Local Open Scope string_scope.
Local Open Scope list_scope.

Variable DB : Type.
Variable selectFull : M DB jsval.
Variable selectById : string -> M DB jsval.
Variable deleteById : string -> M DB jsval.
Variable insertCliente : jsval -> jsval -> jsval -> M DB jsval.
Variable updateCliente : jsval -> jsval -> jsval -> string -> M DB jsval.

Local Abbreviation route :=
  (handle DB selectFull selectById deleteById insertCliente updateCliente).
Local Abbreviation storage :=
  (storageCall DB selectFull selectById deleteById insertCliente updateCliente).

Ltac unfold_route :=
  cbv [handle storageCall get_root get_cliente post_cliente put_cliente
       delete_cliente destructure bind ret throw try_catch res_json
       res_status_json].

(** X15. Every route always answers: no handler lets an exception escape,
    whatever the request and whatever the storage does. The answer is the
    route's success status (201 for create, 200 for the others), or 500
    with the route's fixed error text, or, on the delete route only, 404
    with the not-found error. *)
Theorem routes_always_answer :
  forall (ep : endpoint) (req : request) (db : DB),
    exists r db',
      route ep req db = (Normal r, db')
      /\ (status r = (match ep with Create => 201 | _ => 200 end)%Z
          \/ (status r = 500%Z /\ payload r = err (failureText ep))
          \/ (ep = Delete /\ status r = 404%Z
              /\ payload r = err "Cliente não encontrado")).
Proof.
  intros ep req db. destruct ep; unfold_route.
  - destruct (selectFull db) as [[v|e] db']; do 2 eexists;
      (split; [reflexivity|]); [now left | right; left; now split].
  - destruct (selectById (params_id req) db) as [[v|e] db']; do 2 eexists;
      (split; [reflexivity|]); [now left | right; left; now split].
  - destruct (nullish (body req));
      [do 2 eexists; split; [reflexivity | right; left; now split]|].
    destruct (insertCliente _ _ _ db) as [[v|e] db']; do 2 eexists;
      (split; [reflexivity|]); [now left | right; left; now split].
  - destruct (nullish (body req));
      [do 2 eexists; split; [reflexivity | right; left; now split]|].
    destruct (updateCliente _ _ _ _ db) as [[v|e] db']; do 2 eexists;
      (split; [reflexivity|]); [now left | right; left; now split].
  - destruct (deleteById (params_id req) db) as [[v|e] db'];
      [destruct (truthy v) |]; do 2 eexists; (split; [reflexivity|]);
      [now left | right; right; now repeat split | right; left; now split].
Qed.

(** X16. The two read routes send whatever the storage returns, with
    status 200: the list route the list, and the get-by-id route the result
    of the single-row query, also when that is [undefined] because no record
    has the id. There is no not-found answer for a read. *)
Theorem read_routes_send_the_storage_result :
  forall (req : request) (db : DB) (v : jsval) (db' : DB),
    (selectFull db = (Normal v, db') ->
       route List req db = (Normal (mkResponse 200 v), db'))
    /\ (selectById (params_id req) db = (Normal v, db') ->
        route GetById req db = (Normal (mkResponse 200 v), db')).
Proof.
  intros req db v db'. split; intros H; unfold_route; now rewrite H.
Qed.

(** X17. Create and update do not validate. A body that is null or
    undefined is answered 500 with the storage never called; every other
    body, whatever it holds, is passed on: the storage receives the body's
    Nome, Idade and UF, [undefined] for each one missing, and when it
    returns the answer is the success message. *)
Theorem write_routes_do_not_validate :
  forall (req : request) (db : DB),
    (nullish (body req) = true ->
       route Create req db
       = (Normal (mkResponse 500 (err "Erro ao criar cliente")), db)
       /\ route Update req db
          = (Normal (mkResponse 500 (err "Erro ao atualizar cliente")), db))
    /\ (nullish (body req) = false ->
        (forall v db',
            insertCliente (getProp (body req) "Nome") (getProp (body req) "Idade")
              (getProp (body req) "UF") db = (Normal v, db') ->
            route Create req db
            = (Normal (mkResponse 201 (msg "Cliente criado com sucesso")), db'))
        /\ (forall v db',
               updateCliente (getProp (body req) "Nome")
                 (getProp (body req) "Idade") (getProp (body req) "UF")
                 (params_id req) db = (Normal v, db') ->
               route Update req db
               = (Normal (mkResponse 200 (msg "Cliente atualizado com sucesso")),
                  db'))).
Proof.
  intros req db. split; intros Hb.
  - unfold_route. rewrite Hb. split; reflexivity.
  - split; intros v db' H; unfold_route; rewrite Hb, H; reflexivity.
Qed.

(** X18. A route changes the database only through its one storage call:
    the database after the request is the one that call leaves, on success
    and on failure alike (for create and update, given a body that is not
    null or undefined, without which no call is made). *)
Theorem routes_change_the_store_only_through_storage :
  forall (ep : endpoint) (req : request) (db : DB),
    (ep = Create \/ ep = Update -> nullish (body req) = false) ->
    snd (route ep req db) = snd (storage ep req db).
Proof.
  intros ep req db Hb. destruct ep; unfold_route.
  - now destruct (selectFull db) as [[v|e] db'].
  - now destruct (selectById (params_id req) db) as [[v|e] db'].
  - rewrite Hb by now left.
    now destruct (insertCliente _ _ _ db) as [[v|e] db'].
  - rewrite Hb by now right.
    now destruct (updateCliente _ _ _ _ db) as [[v|e] db'].
  - destruct (deleteById (params_id req) db) as [[v|e] db'];
      [now destruct (truthy v) | reflexivity].
Qed.
End MoreRouteFacts.

Section MoreStoreFacts.
Import BackEnd SpecStore.
Local Open Scope string_scope.

(** GET /clientes/7 on a table whose only record has id 1. *)
Lemma read_routes_witness :
  find (matches "7") (rows oneRowDB) = None
  /\ serve GetById (mkRequest "7" VUndefined) oneRowDB
     = (Normal (mkResponse 200 VUndefined), oneRowDB).
Proof.
  split; [reflexivity|].
  apply (proj2 (read_routes_send_the_storage_result DB selectFull selectById
                  deleteById insertCliente updateCliente
                  (mkRequest "7" VUndefined) oneRowDB VUndefined oneRowDB)).
  reflexivity.
Defined.

(** POST /clientes with no body, and with the empty object as body. *)
Lemma write_routes_witness :
  serve Create (mkRequest "" VUndefined) emptyDB
  = (Normal (mkResponse 500 (err "Erro ao criar cliente")), emptyDB)
  /\ serve Create (mkRequest "" (VObj [])) emptyDB
     = (Normal (mkResponse 201 (msg "Cliente criado com sucesso")),
        mkDB [mkRow 1 VUndefined VUndefined VUndefined] 2 true).
Proof.
  split.
  - apply (proj1 (write_routes_do_not_validate DB selectFull selectById
                    deleteById insertCliente updateCliente
                    (mkRequest "" VUndefined) emptyDB)).
    reflexivity.
  - apply (proj1 (proj2 (write_routes_do_not_validate DB selectFull selectById
                           deleteById insertCliente updateCliente
                           (mkRequest "" (VObj [])) emptyDB) eq_refl)
             VUndefined).
    reflexivity.
Defined.

Lemma routes_change_the_store_witness :
  snd (serve Create (mkRequest "" anaSilva) emptyDB) = oneRowDB.
Proof.
  change oneRowDB
    with (snd (storageCall DB selectFull selectById deleteById insertCliente
                 updateCliente Create (mkRequest "" anaSilva) emptyDB)).
  apply (routes_change_the_store_only_through_storage DB selectFull selectById
           deleteById insertCliente updateCliente Create
           (mkRequest "" anaSilva) emptyDB).
  reflexivity.
Defined.
End MoreStoreFacts.

(** * Flows across handlers *)

Section FlowFacts.
Import Screen.
Local Open Scope string_scope.
Local Open Scope list_scope.

(** X19. Only refreshing, saving and confirming a delete use the network
    or show an alert: opening or cancelling a modal, asking to delete and
    typing leave the event trace and the pending network as they were. *)
Theorem only_three_actions_use_the_network :
  forall (up : jsstring -> jsstring) (s : Sys) (a : action),
    a <> Refresh -> a <> Save -> a <> ConfirmDelete ->
    trace (step up s a) = trace s /\ net (step up s a) = net s.
Proof.
  intros up s a H1 H2 H3. unfold step, run.
  destruct a; try contradiction; cbn [perform];
    cbv [openCreateModal openEditModal confirmDeleteCliente handleInputChange
         onChangeUF resetForm closeDeleteModal setEditingCliente setFormData
         setModalVisible setDeletingCliente setDeleteModalVisible];
    unfold_js; proj_simpl; split; reflexivity.
Qed.

Lemma only_three_actions_witness :
  trace (step sameUnits (start (creating formAna) [Normal created]) Cancel) = []
  /\ net (step sameUnits (start (creating formAna) [Normal created]) Cancel)
     = scripted [Normal created] (Throw networkDown).
Proof.
  apply (only_three_actions_use_the_network sameUnits
           (start (creating formAna) [Normal created]) Cancel); discriminate.
Defined.

(** X20. The delete flow targets the record that was chosen: asking to
    delete a record and confirming arms the timer and sends DELETE to that
    record's URL, and ends with the confirmation closed; confirming while
    no record is chosen does nothing at all. *)
Theorem delete_flow_targets_the_chosen_record :
  forall (up : jsstring -> jsstring) (s : Sys) (c : Cliente),
    (exists rest,
        trace (step up (step up s (AskDelete c)) ConfirmDelete)
        = trace s ++ SetTimeoutAbort 8000 :: Fetch (deleteRequest c) :: rest)
    /\ deletingCliente (ui (step up (step up s (AskDelete c)) ConfirmDelete)) = None
    /\ deleteModalVisible (ui (step up (step up s (AskDelete c)) ConfirmDelete))
       = false
    /\ (deletingCliente (ui s) = None -> step up s ConfirmDelete = s).
Proof.
  intros up s c.
  assert (S1 : step up s (AskDelete c)
               = mkSys (mkState (clientes (ui s)) (loading (ui s))
                          (modalVisible (ui s)) true (editingCliente (ui s))
                          (Some c) (formData (ui s)))
                   (trace s) (net s)).
  { unfold step, run. cbn [perform].
    cbv [confirmDeleteCliente setDeletingCliente setDeleteModalVisible].
    unfold_js. proj_simpl. reflexivity. }
  rewrite S1. unfold step at 1 2 3. cbn [perform ui].
  match goal with
  | |- context [run (deleteCliente ?snap) ?s1] =>
      destruct (deleteCliente_runs snap s1 c eq_refl) as ((rest & T) & _ & V & D)
  end.
  repeat split.
  - exists rest. exact T.
  - exact D.
  - exact V.
  - intros H. unfold step, run. cbn [perform]. unfold deleteCliente.
    rewrite H. reflexivity.
Qed.

Lemma delete_flow_witness :
  step sameUnits (start (creating emptyForm) [Normal created]) ConfirmDelete
  = start (creating emptyForm) [Normal created].
Proof.
  apply (proj2 (proj2 (proj2 (delete_flow_targets_the_chosen_record sameUnits
                                (start (creating emptyForm) [Normal created])
                                ana)))).
  reflexivity.
Defined.

Lemma valid_create_starts_with_request up snap s :
  validateForm (formData snap) s = (Normal true, s) ->
  exists evs,
    trace (run (createCliente up snap) s)
    = trace s ++ Fetch (createRequest up (formData snap)) :: evs.
Proof.
  intros E. unfold run, createCliente.
  unfold bind at 1. rewrite E. cbn [negb]. unfold_handlers. proj_simpl.
  destruct (net s 0%nat) as [r|e].
  - destruct (ok r).
    + match goal with
      | |- context [fetchClientes ?s1] =>
          destruct (fetchClientes_effect s1) as (u & evs & F & _); rewrite F
      end.
      eexists. norm_trace. reflexivity.
    + destruct (text r); eexists; norm_trace; reflexivity.
  - eexists. norm_trace. reflexivity.
Qed.

(** X21. The create flow submits what was typed: after "+ Novo" and
    typing a name, an age and a UF, the form holds exactly those texts, the
    UF in upper case, and no record is being edited; if that form passes
    validation, the save button sends first the POST built from it, never a
    PUT for a record edited before. *)
Theorem create_flow_submits_what_was_typed :
  forall (up : jsstring -> jsstring) (s : Sys) (nome idade uf : jsstring),
    let typed :=
      step up (step up (step up (step up s NewItem) (TypeField FNome nome))
                 (TypeField FIdade idade)) (TypeUF uf) in
    formData (ui typed) = mkForm nome idade (toUpperCase up uf)
    /\ editingCliente (ui typed) = None
    /\ modalVisible (ui typed) = true
    /\ (result (validateForm (mkForm nome idade (toUpperCase up uf))) typed
        = Normal true ->
        exists evs,
          trace (step up typed Save)
          = trace s
            ++ Fetch (createRequest up (mkForm nome idade (toUpperCase up uf)))
            :: evs).
Proof.
  intros up s nome idade uf typed.
  assert (T : typed
              = mkSys (mkState (clientes (ui s)) (loading (ui s)) true
                         (deleteModalVisible (ui s)) None (deletingCliente (ui s))
                         (mkForm nome idade (toUpperCase up uf)))
                  (trace s) (net s)).
  { unfold typed, step, run. cbn [perform].
    cbv [openCreateModal handleInputChange onChangeUF setEditingCliente
         setFormData setModalVisible].
    unfold_js. proj_simpl. reflexivity. }
  rewrite T. cbn [ui formData editingCliente modalVisible].
  repeat split. intros H. apply validateForm_accepts in H. destruct H as (E & _).
  unfold step. cbn [perform ui]. unfold onSave. cbn [editingCliente].
  match goal with
  | |- context [run (createCliente up ?snap) ?s1] =>
      destruct (valid_create_starts_with_request up snap s1 E) as (evs & X)
  end.
  exists evs. exact X.
Qed.

Lemma create_flow_witness :
  exists evs,
    trace (step sameUnits
             (step sameUnits
                (step sameUnits
                   (step sameUnits
                      (step sameUnits (start (editing formNoName) []) NewItem)
                      (TypeField FNome (lit "Ana Silva")))
                   (TypeField FIdade (lit "30")))
                (TypeUF (lit "sp")))
             Save)
    = trace (start (editing formNoName) [])
      ++ Fetch (createRequest sameUnits
                  (mkForm (lit "Ana Silva") (lit "30")
                     (toUpperCase sameUnits (lit "sp"))))
      :: evs.
Proof.
  apply (proj2 (proj2 (proj2 (create_flow_submits_what_was_typed sameUnits
                                (start (editing formNoName) [])
                                (lit "Ana Silva") (lit "30") (lit "sp"))))).
  reflexivity.
Defined.
End FlowFacts.
